(** * DATAez: the prompt-orchestration and response-interpretation core

    A shallow embedding of [backend/ai_assistant.py] and
    [backend/question_generator.py], and the properties their specification
    states about them.

    Conventions of the embedding.
    - A Python [str] is a [string]: a sequence of characters, one [ascii]
      per code point, covering the code points below 256.  [lower],
      [strip] and [int] follow CPython on that range.
    - A Python [int] is a [Z]; list slices follow Python's rules for
      negative bounds.
    - A [try]/[except] block is a computation in the [result] monad whose
      failure is handed to the handler; only subclasses of [Exception] are
      modelled, which is what the handlers of the source catch.
    - The tokenizer (tiktoken), the chat-completion service (openai) and the
      JSON decoder (json.loads) are libraries outside the repository: they
      are parameters of the sections below.
    - [st.session_state.conversation_history] is passed and returned
      explicitly; the [st.error] display is not part of the model. *)

From Stdlib Require Import ZArith NArith String Ascii QArith.
From stdpp Require Import base option list gmap strings.

Set Warnings "-register-all".
Set Default Proof Using "Type".

Local Open Scope Z_scope.

(** ** Python strings *)

Module Py.

Definition LF : ascii := "010"%char.
Definition DQ : ascii := "034"%char.

Definition chr (c : ascii) : string := String c EmptyString.

(** [str.isspace] on one character (code points below 256). *)
Definition isspace (c : ascii) : bool :=
  let n := N_of_ascii c in
  ((9 <=? n) && (n <=? 13) || (28 <=? n) && (n <=? 32)
   || (n =? 133) || (n =? 160))%N.

(** [str.lower] on one character (code points below 256). *)
Definition lower_char (c : ascii) : ascii :=
  let n := N_of_ascii c in
  if ((65 <=? n) && (n <=? 90)
      || (192 <=? n) && (n <=? 222) && negb (n =? 215))%N
  then ascii_of_N (n + 32) else c.

Fixpoint lower (s : string) : string :=
  match s with
  | EmptyString => EmptyString
  | String c s' => String (lower_char c) (lower s')
  end.

Fixpoint lstrip (s : string) : string :=
  match s with
  | EmptyString => EmptyString
  | String c s' => if isspace c then lstrip s' else s
  end.

Fixpoint rstrip (s : string) : string :=
  match s with
  | EmptyString => EmptyString
  | String c s' =>
      match rstrip s' with
      | EmptyString => if isspace c then EmptyString else chr c
      | r => String c r
      end
  end.

(** [s.strip()] *)
Definition strip (s : string) : string := rstrip (lstrip s).

(** [len(s)] *)
Definition len (s : string) : Z := Z.of_nat (String.length s).

(** [s.startswith(p)] *)
Definition startswith (s p : string) : bool := String.prefix p s.

Fixpoint drop (n : nat) (s : string) : string :=
  match n, s with
  | O, _ => s
  | S n', String _ s' => drop n' s'
  | S _, EmptyString => EmptyString
  end.

Fixpoint take (n : nat) (s : string) : string :=
  match n, s with
  | S n', String c s' => String c (take n' s')
  | _, _ => EmptyString
  end.

(** [s.find(sub)], with [None] for Python's [-1]. *)
Fixpoint find (s sub : string) : option nat :=
  if startswith s sub then Some O
  else match s with
       | EmptyString => None
       | String _ s' => S <$> find s' sub
       end.

(** [s.rfind(sub)], with [None] for Python's [-1]. *)
Fixpoint rfind (s sub : string) : option nat :=
  match s with
  | EmptyString => if startswith s sub then Some O else None
  | String _ s' =>
      match rfind s' sub with
      | Some i => Some (S i)
      | None => if startswith s sub then Some O else None
      end
  end.

(** [sub in s] *)
Definition contains (s sub : string) : bool := bool_decide (is_Some (find s sub)).

(** A clamped slice bound: Python's treatment of an index in [s[i:j]]. *)
Definition clamp (n : nat) (i : Z) : nat :=
  if i <? 0 then Z.to_nat (Z.max 0 (Z.of_nat n + i))
  else Nat.min (Z.to_nat i) n.

(** [s[i:j]] *)
Definition slice (s : string) (i j : Z) : string :=
  let a := clamp (String.length s) i in
  let b := clamp (String.length s) j in
  take (b - a) (drop a s).

(** [s.split(sep, 1)] for a non-empty [sep]. *)
Definition split1 (s sep : string) : list string :=
  match find s sep with
  | Some n => [take n s; drop (n + String.length sep) s]
  | None => [s]
  end.

(** [s.split(c)] for a one-character separator [c]. *)
Fixpoint split_char (s : string) (c : ascii) : list string :=
  match s with
  | EmptyString => [EmptyString]
  | String a s' =>
      if Ascii.eqb a c then EmptyString :: split_char s' c
      else match split_char s' c with
           | w :: ws => String a w :: ws
           | [] => [chr a]
           end
  end.

(** [s.replace(old, new)] for a non-empty [old]: occurrences are replaced
    from the left, without overlap.  [skip] counts the characters of an
    occurrence that is being passed over. *)
Fixpoint replace_from (skip : nat) (s old new : string) : string :=
  match s with
  | EmptyString => EmptyString
  | String c s' =>
      match skip with
      | S k => replace_from k s' old new
      | O =>
          if startswith s old
          then new +:+ replace_from (String.length old - 1) s' old new
          else String c (replace_from O s' old new)
      end
  end.

Definition replace (s old new : string) : string := replace_from O s old new.

(** Decimal digits, for [str(n)] and [int(s)]. *)
Definition digit_of (c : ascii) : option Z :=
  let n := N_of_ascii c in
  if ((48 <=? n) && (n <=? 57))%N then Some (Z.of_N n - 48) else None.

Definition digit_char (d : Z) : ascii := ascii_of_N (Z.to_N (48 + d)).

Fixpoint str_of_pos_fuel (fuel : nat) (n : Z) (acc : string) : string :=
  match fuel with
  | O => acc
  | S fuel' =>
      let acc' := String (digit_char (n mod 10)) acc in
      if n <? 10 then acc' else str_of_pos_fuel fuel' (n / 10) acc'
  end.

(** [str(n)] for an [int] *)
Definition str_of_int (n : Z) : string :=
  if n <? 0
  then String "-" (str_of_pos_fuel (S (Z.to_nat (Z.log2 (- n)))) (- n) EmptyString)
  else str_of_pos_fuel (S (Z.to_nat (Z.log2 n))) n EmptyString.

(** The digits of a base-10 literal: digits separated by single
    underscores.  [prev_digit] tells whether the previous character was a
    digit; the result carries the value and the number of digits read. *)
Fixpoint int_digits (s : string) (prev_digit : bool) (acc : Z) (count : nat)
  : option (Z * nat) :=
  match s with
  | EmptyString => if prev_digit then Some (acc, count) else None
  | String c s' =>
      match digit_of c with
      | Some d => int_digits s' true (10 * acc + d) (S count)
      | None =>
          if Ascii.eqb c "_" && prev_digit then int_digits s' false acc count
          else None
      end
  end.

(** The default of [sys.get_int_max_str_digits()]. *)
Definition int_max_str_digits : nat := 4300.

(** [int(s)]: [None] stands for [ValueError]. *)
Definition int (s : string) : option Z :=
  let body sign t :=
    '(v, count) ← int_digits t false 0 O;
    if (int_max_str_digits <? count)%nat then None else Some (sign * v) in
  match strip s with
  | String "-" t => body (-1) t
  | String "+" t => body 1 t
  | t => body 1 t
  end.

End Py.

(** ** Exceptions *)

(** The classes of exception the handlers of the source tell apart, with
    the text [str(e)] gives. *)
Inductive exn_class := JSONDecodeError | TypeError | AttributeError | OtherException.

Record exn := Raise { class_of : exn_class; str_of : string }.

Inductive result (A : Type) : Type :=
| Ok (a : A)
| Err (e : exn).
Arguments Ok {A} a.
Arguments Err {A} e.

Global Instance result_ret : MRet result := λ A a, Ok a.
Global Instance result_bind : MBind result :=
  λ A B f m, match m with Ok a => f a | Err e => Err e end.

Definition is_JSONDecodeError (e : exn) : bool :=
  match class_of e with JSONDecodeError => true | _ => false end.

(** ** Python values

    The values [json.loads] builds, and the dictionaries the program passes
    around.  A finite [float] is the rational it denotes. *)
Inductive pyobj :=
| PyNone
| PyBool (b : bool)
| PyInt (z : Z)
| PyFloat (f : Q)
| PyStr (s : string)
| PyList (l : list pyobj)
| PyDict (d : gmap string pyobj).

Module PyObj.

Definition type_name (v : pyobj) : string :=
  match v with
  | PyNone => "NoneType" | PyBool _ => "bool" | PyInt _ => "int"
  | PyFloat _ => "float" | PyStr _ => "str" | PyList _ => "list"
  | PyDict _ => "dict"
  end.

(** [bool(v)] *)
Definition truthy (v : pyobj) : bool :=
  match v with
  | PyNone => false
  | PyBool b => b
  | PyInt z => negb (z =? 0)
  | PyFloat f => negb (Qnum f =? 0)
  | PyStr s => negb (String.eqb s EmptyString)
  | PyList l => negb (bool_decide (l = []))
  | PyDict d => negb (bool_decide (d = ∅))
  end.

Definition is_str (v : pyobj) (key : string) : bool :=
  match v with PyStr s => String.eqb s key | _ => false end.

(** [key in v] for a string [key] *)
Definition contains (v : pyobj) (key : string) : result bool :=
  match v with
  | PyDict d => Ok (bool_decide (is_Some (d !! key)))
  | PyStr s => Ok (Py.contains s key)
  | PyList l => Ok (existsb (λ x, is_str x key) l)
  | _ => Err (Raise TypeError
                ("argument of type '" +:+ type_name v +:+ "' is not iterable"))
  end.

(** [v[key]] for a string [key] known to be [in v] *)
Definition getitem (v : pyobj) (key : string) : result pyobj :=
  match v with
  | PyDict d =>
      match d !! key with
      | Some x => Ok x
      | None => Err (Raise OtherException ("'" +:+ key +:+ "'"))
      end
  | PyStr _ => Err (Raise TypeError "string indices must be integers, not 'str'")
  | PyList _ => Err (Raise TypeError "list indices must be integers or slices, not str")
  | _ => Err (Raise TypeError
                ("'" +:+ type_name v +:+ "' object is not subscriptable"))
  end.

(** [v.get(key, default)] on a dictionary *)
Definition get (d : gmap string pyobj) (key : string) (default : pyobj) : pyobj :=
  match d !! key with Some x => x | None => default end.

(** [v.strip()] *)
Definition strip (v : pyobj) : result string :=
  match v with
  | PyStr s => Ok (Py.strip s)
  | _ => Err (Raise AttributeError
                ("'" +:+ type_name v +:+ "' object has no attribute 'strip'"))
  end.

Fixpoint chars (s : string) : list pyobj :=
  match s with
  | EmptyString => []
  | String c s' => PyStr (Py.chr c) :: chars s'
  end.

(** The items [for q in v] visits.  A dictionary yields its keys. *)
Definition iter (v : pyobj) : result (list pyobj) :=
  match v with
  | PyList l => Ok l
  | PyStr s => Ok (chars s)
  | PyDict d => Ok (PyStr <$> (map_to_list d).*1)
  | _ => Err (Raise TypeError ("'" +:+ type_name v +:+ "' object is not iterable"))
  end.

End PyObj.

(** ** Python list slices *)

(** [l[:n]] *)
Definition slice_to {A} (l : list A) (n : Z) : list A :=
  take (Py.clamp (length l) n) l.

(** [l[n:]] *)
Definition slice_from {A} (l : list A) (n : Z) : list A :=
  drop (Py.clamp (length l) n) l.

(** ** Instances of the outside libraries, for running the program

    The program's sections below take the tokenizer, the service and the
    JSON decoder as parameters.  To run the program on concrete inputs the
    examples use these instances: a tokenizer with one token per character,
    and a decoder for the part of JSON without fractional numbers and
    without [\u] escapes (every other text is a decode error). *)

Module CharTokenizer.

Fixpoint codes (s : string) : list Z :=
  match s with
  | EmptyString => []
  | String c s' => Z.of_N (N_of_ascii c) :: codes s'
  end.

Definition encode (text : string) : result (list Z) := Ok (codes text).

Fixpoint text_of (tokens : list Z) : string :=
  match tokens with
  | [] => EmptyString
  | t :: ts => String (ascii_of_N (Z.to_N t)) (text_of ts)
  end.

Definition decode (tokens : list Z) : result string := Ok (text_of tokens).

End CharTokenizer.

Module JsonFragment.

Definition is_ws (c : ascii) : bool :=
  let n := N_of_ascii c in ((n =? 32) || (n =? 9) || (n =? 10) || (n =? 13))%N.

Fixpoint skip_ws (s : string) : string :=
  match s with
  | String c s' => if is_ws c then skip_ws s' else s
  | EmptyString => EmptyString
  end.

Definition unescape (c : ascii) : option ascii :=
  let n := N_of_ascii c in
  if (n =? 34)%N then Some c            (* quote *)
  else if (n =? 92)%N then Some c       (* backslash *)
  else if (n =? 47)%N then Some c       (* slash *)
  else if (n =? 110)%N then Some "010"%char
  else if (n =? 116)%N then Some "009"%char
  else if (n =? 114)%N then Some "013"%char
  else if (n =? 98)%N then Some "008"%char
  else if (n =? 102)%N then Some "012"%char
  else None.

(** The rest of a string literal, after its opening quote. *)
Fixpoint string_body (s : string) : option (string * string) :=
  match s with
  | EmptyString => None
  | String c s' =>
      if (N_of_ascii c =? 34)%N then Some (EmptyString, s')
      else if (N_of_ascii c =? 92)%N then
        match s' with
        | String e s'' =>
            match unescape e, string_body s'' with
            | Some ch, Some (body, rest) => Some (String ch body, rest)
            | _, _ => None
            end
        | EmptyString => None
        end
      else if (N_of_ascii c <? 32)%N then None
      else match string_body s' with
           | Some (body, rest) => Some (String c body, rest)
           | None => None
           end
  end.

Fixpoint digits (s : string) (acc : Z) : Z * string :=
  match s with
  | String c s' =>
      match Py.digit_of c with
      | Some d => digits s' (10 * acc + d)
      | None => (acc, s)
      end
  | EmptyString => (acc, s)
  end.

(** An integer literal: no leading zero, no fraction, no exponent. *)
Definition integer (s : string) : option (Z * string) :=
  match s with
  | String c s' =>
      match Py.digit_of c with
      | Some d =>
          let '(v, rest) := if d =? 0 then (0, s') else digits s' d in
          match rest with
          | String r _ =>
              if Ascii.eqb r "." || Ascii.eqb r "e" || Ascii.eqb r "E"
                 || bool_decide (is_Some (Py.digit_of r))
              then None else Some (v, rest)
          | EmptyString => Some (v, rest)
          end
      | None => None
      end
  | EmptyString => None
  end.

Definition literal (name : string) (v : pyobj) (s : string) : option (pyobj * string) :=
  if Py.startswith s name then Some (v, Py.drop (String.length name) s) else None.

(** [value], [elements] (after an opening bracket or a comma) and [members]
    (after an opening brace or a comma), each on the text that is left. *)
Fixpoint value (fuel : nat) (s : string) : option (pyobj * string) :=
  match fuel with
  | O => None
  | S fuel' =>
      match s with
      | String "[" r =>
          match skip_ws r with
          | String "]" r' => Some (PyList [], r')
          | r' => '(l, rest) ← elements fuel' r'; Some (PyList l, rest)
          end
      | String "{" r =>
          match skip_ws r with
          | String "}" r' => Some (PyDict ∅, r')
          | r' => '(d, rest) ← members fuel' r' ∅; Some (PyDict d, rest)
          end
      | String "034" r => '(b, rest) ← string_body r; Some (PyStr b, rest)
      | String "-" r => '(v, rest) ← integer r; Some (PyInt (- v), rest)
      | String "t" _ => literal "true" (PyBool true) s
      | String "f" _ => literal "false" (PyBool false) s
      | String "n" _ => literal "null" PyNone s
      | _ => '(v, rest) ← integer s; Some (PyInt v, rest)
      end
  end
with elements (fuel : nat) (s : string) : option (list pyobj * string) :=
  match fuel with
  | O => None
  | S fuel' =>
      '(v, rest) ← value fuel' s;
      match skip_ws rest with
      | String "," r => '(l, rest') ← elements fuel' (skip_ws r); Some (v :: l, rest')
      | String "]" r => Some ([v], r)
      | _ => None
      end
  end
with members (fuel : nat) (s : string) (acc : gmap string pyobj)
  : option (gmap string pyobj * string) :=
  match fuel with
  | O => None
  | S fuel' =>
      match s with
      | String "034" r =>
          '(key, rest) ← string_body r;
          match skip_ws rest with
          | String ":" r' =>
              '(v, rest') ← value fuel' (skip_ws r');
              match skip_ws rest' with
              | String "," r'' => members fuel' (skip_ws r'') (<[key := v]> acc)
              | String "}" r'' => Some (<[key := v]> acc, r'')
              | _ => None
              end
          | _ => None
          end
      | _ => None
      end
  end.

(** [json.loads] on the fragment. *)
Definition loads (s : string) : result pyobj :=
  match value (2 * String.length s + 2) (skip_ws s) with
  | Some (v, rest) =>
      match skip_ws rest with
      | EmptyString => Ok v
      | _ => Err (Raise JSONDecodeError "Extra data")
      end
  | None => Err (Raise JSONDecodeError "Expecting value")
  end.

End JsonFragment.

(** ** The service request *)

(** One [chat.completions.create] call: a single user message. *)
Record request := Request {
  req_model : string;
  req_content : string;
  req_max_tokens : Z;
  req_temperature : Q
}.

(** [try: body except Exception as e: handler(e)] *)
Definition try_except {A} (body : result A) (handler : exn → A) : A :=
  match body with
  | Ok a => a
  | Err e => handler e
  end.

Definition nl : string := Py.chr Py.LF.
Definition quoted (s : string) : string := Py.chr Py.DQ +:+ s +:+ Py.chr Py.DQ.

(** ** ai_assistant.py *)

(** An element of [st.session_state.conversation_history]: a dictionary
    with the keys ['question'] and ['answer']. *)
Record entry := Entry { entry_question : string; entry_answer : string }.

Module AIAssistant.

Definition model : string := "gpt-4o-mini".
Definition temperature : Q := 1 # 10.

(** The split of the reply in [answer_question] (from
    [if "justification:" in full_response.lower()] to the [return]). *)
Definition split_answer_justification (full_response : string) : string * string :=
  if Py.contains (Py.lower full_response) "justification:" then
    match Py.split1 full_response "Justification:" with
    | [part0; part1] => (Py.strip part0, Py.strip part1)
    | _ => (full_response, "Based on the document content provided.")
    end
  else (full_response, "Response is grounded in the document content.").

(** One turn of the loop [for line in lines] of [evaluate_user_answer]. *)
Definition parse_line (st : string * string * Z) (line : string) : string * string * Z :=
  let '(evaluation, feedback, score) := st in
  if Py.startswith line "Evaluation:" then
    (Py.strip (Py.replace line "Evaluation:" EmptyString), feedback, score)
  else if Py.startswith line "Feedback:" then
    (evaluation, Py.strip (Py.replace line "Feedback:" EmptyString), score)
  else if Py.startswith line "Score:" then
    (evaluation, feedback,
     match Py.int (Py.strip (Py.replace line "Score:" EmptyString)) with
     | Some n => n
     | None => 5
     end)
  else st.

(** The parse of the reply in [evaluate_user_answer] (from
    [lines = full_response.split('\n')] to the [return]). *)
Definition parse_evaluation (full_response : string) : string * string * Z :=
  let lines := Py.split_char full_response Py.LF in
  fold_left parse_line lines ("Partially Correct", full_response, 5).

(** [add_to_conversation_history], on the history it updates. *)
Definition add_to_conversation_history
    (conversation_history : list entry) (question answer : string) : list entry :=
  let appended := conversation_history ++ [Entry question answer] in
  if 10 <? Z.of_nat (length appended) then tail appended else appended.

Definition clear_conversation_history (conversation_history : list entry) : list entry := [].

Definition context_of (context_history : option (list entry)) : string :=
  match context_history with
  | Some ((_ :: _) as history) =>
      fold_left
        (λ context e,
           context +:+ "Q: " +:+ entry_question e +:+ nl
                   +:+ "A: " +:+ entry_answer e +:+ nl)
        (slice_from history (-3))
        (nl +:+ nl +:+ "Previous conversation:" +:+ nl)
  | _ => EmptyString
  end.

(** The templates.  The sign for "at most" in the summary template lies
    outside the code points below 256; it stands here in its UTF-8
    encoding, and the template is only handed to the service. *)
Definition summary_prompt (truncated_text : string) : string :=
     "
            Please provide a concise summary of the following document in exactly 150 words or less. 
            Focus on the main topics, key findings, and important conclusions.
            
            Document:
            "
     +:+ truncated_text
     +:+ "
            
            Summary (≤150 words):
            ".

Definition answer_prompt (truncated_text context question : string) : string :=
     "
            You are an AI assistant analyzing a document. Answer the user's question based ONLY on the information provided in the document.
            
            Rules:
            1. Base your answer strictly on the document content
            2. If information is not in the document, say "
     +:+ quoted "This information is not available in the document"
     +:+ "
            3. Provide a clear justification referencing specific parts of the document
            4. Be concise but comprehensive
            5. Do not make assumptions or add external knowledge
            
            Document:
            "
     +:+ truncated_text
     +:+ "
            
            "
     +:+ context
     +:+ "
            
            Question: "
     +:+ question
     +:+ "
            
            Please provide your answer followed by a justification that references specific parts of the document.
            
            Answer:
            ".

Definition evaluation_prompt (truncated_text question correct_info user_answer : string) : string :=
     "
            You are evaluating a user's answer to a comprehension question about a document.
            
            Document excerpt:
            "
     +:+ truncated_text
     +:+ "
            
            Question: "
     +:+ question
     +:+ "
            
            Expected information: "
     +:+ correct_info
     +:+ "
            
            User's answer: "
     +:+ user_answer
     +:+ "
            
            Please evaluate the user's answer and provide:
            1. A brief evaluation (Correct/Partially Correct/Incorrect)
            2. Constructive feedback with reference to the document
            3. A score from 1-10
            
            Format your response as:
            Evaluation: [Correct/Partially Correct/Incorrect]
            Feedback: [Your feedback with document references]
            Score: [1-10]
            ".

Section WithServices.
(** [self.encoding.encode], [self.encoding.decode] and
    [self.client.chat.completions.create(...).choices[0].message.content]. *)
Variable encode : string → result (list Z).
Variable decode : list Z → result string.
Variable chat_completion : request → result string.

Definition count_tokens (text : string) : result Z :=
  tokens ← encode text;
  mret (Z.of_nat (length tokens)).

Definition truncate_text (text : string) (max_tokens : Z) : result string :=
  tokens ← encode text;
  if Z.of_nat (length tokens) <=? max_tokens then mret text
  else
    let truncated_tokens := slice_to tokens max_tokens in
    decode truncated_tokens.

Definition generate_summary (document_text : string) : string :=
  try_except
    (truncated_text ← truncate_text document_text 2500;
     let prompt := summary_prompt truncated_text in
     response ← chat_completion (Request model prompt 200 temperature);
     let summary := Py.strip response in
     mret summary)
    (λ e, "Error generating summary: " +:+ str_of e).

Definition answer_question (question document_text : string)
    (context_history : option (list entry)) : string * string :=
  try_except
    (truncated_text ← truncate_text document_text 2500;
     let context := context_of context_history in
     let prompt := answer_prompt truncated_text context question in
     response ← chat_completion (Request model prompt 400 temperature);
     let full_response := Py.strip response in
     mret (split_answer_justification full_response))
    (λ e, ("Error answering question: " +:+ str_of e, EmptyString)).

Definition evaluate_user_answer (question user_answer correct_info document_text : string)
    : string * string * Z :=
  try_except
    (truncated_text ← truncate_text document_text 2000;
     let prompt := evaluation_prompt truncated_text question correct_info user_answer in
     response ← chat_completion (Request model prompt 300 temperature);
     let full_response := Py.strip response in
     mret (parse_evaluation full_response))
    (λ e, ("Error", "Error evaluating answer: " +:+ str_of e, 0)).

End WithServices.

End AIAssistant.

(** ** question_generator.py *)

Module QuestionGenerator.

Definition model : string := "gpt-3.5-turbo".
Definition temperature : Q := 3 # 10.

Definition questions_prompt (truncated_text : string) (num_questions : Z) : string :=
     "
            Based on the following document, generate exactly "
     +:+ Py.str_of_int num_questions
     +:+ " challenging questions that test:
            1. Reading comprehension
            2. Critical thinking
            3. Analysis and inference
            4. Understanding of key concepts
            
            Document:
            "
     +:+ truncated_text
     +:+ "
            
            For each question, provide:
            - The question text
            - The expected answer or key points
            - Difficulty level (Easy/Medium/Hard)
            
            Generate questions that require understanding the document content, not just memorization.
            Avoid simple factual questions. Focus on analysis, comparison, inference, and application.
            
            Format your response as a JSON array with this structure:
            [
                {
                    "
     +:+ quoted "question"
     +:+ ": "
     +:+ quoted "Your question here"
     +:+ ",
                    "
     +:+ quoted "expected_answer"
     +:+ ": "
     +:+ quoted "Key points for the answer"
     +:+ ",
                    "
     +:+ quoted "difficulty"
     +:+ ": "
     +:+ quoted "Easy/Medium/Hard"
     +:+ ",
                    "
     +:+ quoted "type"
     +:+ ": "
     +:+ quoted "comprehension/analysis/inference"
     +:+ "
                }
            ]
            
            Questions:
            ".

(** [all(key in q for key in keys)] *)
Fixpoint all_in (q : pyobj) (keys : list string) : result bool :=
  match keys with
  | [] => Ok true
  | key :: keys' =>
      b ← PyObj.contains q key;
      if b : bool then all_in q keys' else Ok false
  end.

Definition required_keys : list string := ["question"; "expected_answer"; "difficulty"].

(** [q.get(key, default)]; only a dictionary has the method. *)
Definition get (q : pyobj) (key : string) (default : pyobj) : result pyobj :=
  match q with
  | PyDict d => Ok (PyObj.get d key default)
  | _ => Err (Raise AttributeError
                ("'" +:+ PyObj.type_name q +:+ "' object has no attribute 'get'"))
  end.

(** The dictionary appended to [valid_questions] for [q]. *)
Definition cleaned (q : pyobj) : result (gmap string pyobj) :=
  question ← PyObj.getitem q "question" ≫= PyObj.strip;
  expected_answer ← PyObj.getitem q "expected_answer" ≫= PyObj.strip;
  difficulty ← get q "difficulty" (PyStr "Medium");
  type ← get q "type" (PyStr "comprehension");
  mret (<["question" := PyStr question]>
        (<["expected_answer" := PyStr expected_answer]>
         (<["difficulty" := difficulty]>
          (<["type" := type]> ∅)))).

(** The loop [for q in questions] that fills [valid_questions]. *)
Fixpoint collect (questions : list pyobj) (valid_questions : list (gmap string pyobj))
  : result (list (gmap string pyobj)) :=
  match questions with
  | [] => Ok valid_questions
  | q :: rest =>
      b ← all_in q required_keys;
      if b : bool then
        c ← cleaned q;
        collect rest (valid_questions ++ [c])
      else collect rest valid_questions
  end.

(** [response_text.find('[')] and [response_text.rfind(']') + 1], then
    [response_text[start:end]]. *)
Definition index_or_minus1 (i : option nat) : Z :=
  match i with Some n => Z.of_nat n | None => -1 end.

Definition json_text (response_text : string) : string :=
  let start := index_or_minus1 (Py.find response_text "[") in
  let end_ := index_or_minus1 (Py.rfind response_text "]") + 1 in
  Py.slice response_text start end_.

Definition is_marker_line (line : string) : bool :=
  existsb (Py.startswith line) ["1."; "2."; "3."; "Question:"; "Q:"].

(** One turn of the loop of [_parse_questions_manually], on the pair of
    [questions] and [current_question]. *)
Definition manual_line (st : list (gmap string pyobj) * gmap string pyobj) (line : string)
  : list (gmap string pyobj) * gmap string pyobj :=
  let '(questions, current_question) := st in
  let line := Py.strip line in
  if is_marker_line line then
    let '(questions, current_question) :=
      if PyObj.truthy (PyDict current_question)
      then (questions ++ [current_question], ∅)
      else (questions, current_question) in
    (questions,
     <["type" := PyStr "comprehension"]>
       (<["difficulty" := PyStr "Medium"]>
        (<["expected_answer" := PyStr "Based on document content"]>
         (<["question" := PyStr line]> current_question))))
  else st.

Definition _parse_questions_manually (response_text : string) (num_questions : Z)
  : list (gmap string pyobj) :=
  let lines := Py.split_char response_text Py.LF in
  let '(questions, current_question) := fold_left manual_line lines ([], ∅) in
  let questions :=
    if PyObj.truthy (PyDict current_question)
    then questions ++ [current_question] else questions in
  slice_to questions num_questions.

Definition question_dict (question expected_answer difficulty type : string)
  : gmap string string :=
  <["question" := question]>
    (<["expected_answer" := expected_answer]>
     (<["difficulty" := difficulty]>
      (<["type" := type]> ∅))).

Definition fallback_questions : list (gmap string string) :=
  [ question_dict
      "What is the main topic or theme discussed in this document?"
      "The main topic should be identified from the document content"
      "Easy" "comprehension";
    question_dict
      "What are the key findings or conclusions presented in the document?"
      "Key findings should be summarized from the document"
      "Medium" "analysis";
    question_dict
      "Based on the information provided, what implications or applications can be drawn?"
      "Implications should be inferred from the document content"
      "Hard" "inference" ].

(** A dictionary of strings as a dictionary of Python values. *)
Definition of_strings (d : gmap string string) : gmap string pyobj := PyStr <$> d.

Definition _generate_fallback_questions (document_text : string) (num_questions : Z)
  : list (gmap string pyobj) :=
  slice_to (of_strings <$> fallback_questions) num_questions.

(** The test of [validate_questions] on one field:
    [question.get(key) and len(question[key].strip()) > bound]. *)
Definition field_longer_than (question : gmap string pyobj) (key : string) (bound : Z)
  : result bool :=
  if PyObj.truthy (PyObj.get question key PyNone) then
    s ← PyObj.getitem (PyDict question) key ≫= PyObj.strip;
    mret (bound <? Py.len s)
  else mret false.

Fixpoint validate_from (questions validated_questions : list (gmap string pyobj))
  : result (list (gmap string pyobj)) :=
  match questions with
  | [] => Ok validated_questions
  | question :: rest =>
      b1 ← field_longer_than question "question" 10;
      b2 ← (if b1 : bool then field_longer_than question "expected_answer" 5 else mret false);
      validate_from rest
        (if b2 : bool then validated_questions ++ [question] else validated_questions)
  end.

Definition validate_questions (questions : list (gmap string pyobj)) (document_text : string)
  : result (list (gmap string pyobj)) :=
  validate_from questions [].

Section WithServices.
Variable encode : string → result (list Z).
Variable decode : list Z → result string.
Variable chat_completion : request → result string.
(** [json.loads] *)
Variable json_loads : string → result pyobj.

(** The body of the inner [try] of [generate_challenge_questions]. *)
Definition parse_question_set (response_text : string) (num_questions : Z)
  : result (list (gmap string pyobj)) :=
  questions ← json_loads (json_text response_text);
  items ← PyObj.iter questions;
  valid_questions ← collect items [];
  mret (slice_to valid_questions num_questions).

(** The assistant built inside the [try] only lends its tokenizer: its
    construction is not a step of the model. *)
Definition generate_challenge_questions (document_text : string) (num_questions : Z)
  : list (gmap string pyobj) :=
  try_except
    (truncated_text ← AIAssistant.truncate_text encode decode document_text 2500;
     let prompt := questions_prompt truncated_text num_questions in
     response ← chat_completion (Request model prompt 800 temperature);
     let response_text := Py.strip response in
     match parse_question_set response_text num_questions with
     | Ok questions => Ok questions
     | Err e =>
         if is_JSONDecodeError e
         then Ok (_parse_questions_manually response_text num_questions)
         else Err e
     end)
    (λ e, _generate_fallback_questions document_text num_questions).

End WithServices.

End QuestionGenerator.

(** ** Definitions used to state the properties *)

(** A sequence of calls of [add_to_conversation_history], oldest first. *)
Definition appends (conversation_history : list entry) (exchanges : list (string * string))
  : list entry :=
  fold_left (λ history qa, AIAssistant.add_to_conversation_history history qa.1 qa.2)
            exchanges conversation_history.

(** The entry an exchange is stored as, and the last ten entries of a list. *)
Definition to_entry (qa : string * string) : entry := Entry qa.1 qa.2.

Definition last10 (l : list entry) : list entry := drop (length l - 10) l.

(** The last line of [lines] that starts with [marker]. *)
Definition last_with (marker : string) (lines : list string) : option string :=
  last (filter (λ line, Is_true (Py.startswith line marker)) lines).

(** The text of a line without its occurrences of [marker], stripped. *)
Definition unmarked (marker line : string) : string :=
  Py.strip (Py.replace line marker EmptyString).

(** The value a marked field takes: that of the last line that starts with
    the marker, or [default] when there is none. *)
Definition field_of (marker default : string) (lines : list string) : string :=
  match last_with marker lines with
  | Some line => unmarked marker line
  | None => default
  end.

(** The score: the integer on the last line that starts with ["Score:"], 5
    when that text is not an integer, or [default] when there is no such
    line. *)
Definition score_of (default : Z) (lines : list string) : Z :=
  match last_with "Score:" lines with
  | Some line =>
      match Py.int (unmarked "Score:" line) with
      | Some n => n
      | None => 5
      end
  | None => default
  end.

(** A step of a flow of [AIAssistant] raises [e]: the truncation does, or
    the truncation returns and the service call on the prompt built from its
    result does. *)
Definition flow_raises
    (encode : string → result (list Z)) (decode : list Z → result string)
    (chat_completion : request → result string)
    (document_text : string) (max_tokens : Z)
    (prompt_of : string → string) (max_output : Z) (e : exn) : Prop :=
  AIAssistant.truncate_text encode decode document_text max_tokens = Err e ∨
  ∃ truncated_text,
    AIAssistant.truncate_text encode decode document_text max_tokens = Ok truncated_text ∧
    chat_completion
      (Request AIAssistant.model (prompt_of truncated_text) max_output
               AIAssistant.temperature) = Err e.

(** The validation gate on a record of strings: ['question'] present with
    more than 10 characters once stripped, ['expected_answer'] present with
    more than 5. *)
Definition passes_gate (q : gmap string string) : bool :=
  match q !! "question", q !! "expected_answer" with
  | Some question, Some expected_answer =>
      (10 <? Py.len (Py.strip question)) && (5 <? Py.len (Py.strip expected_answer))
  | _, _ => false
  end.

(** A JSON object that has the three required keys. *)
Definition has_required (d : gmap string pyobj) : bool :=
  forallb (λ key, bool_decide (is_Some (d !! key))) QuestionGenerator.required_keys.

(** A JSON object whose ['question'] and ['expected_answer'], when it has
    the three required keys, are strings. *)
Definition string_fields (d : gmap string pyobj) : Prop :=
  has_required d = true →
  ∃ question expected_answer,
    d !! "question" = Some (PyStr question) ∧
    d !! "expected_answer" = Some (PyStr expected_answer).

Definition stripped (v : option pyobj) : pyobj :=
  match v with
  | Some (PyStr s) => PyStr (Py.strip s)
  | Some v => v
  | None => PyNone
  end.

(** The question kept for a JSON object [d]: ['question'] and
    ['expected_answer'] stripped, ['difficulty'] as it is, ['type'] as it is
    or ["comprehension"]. *)
Definition kept_question (d : gmap string pyobj) : gmap string pyobj :=
  <["question" := stripped (d !! "question")]>
    (<["expected_answer" := stripped (d !! "expected_answer")]>
     (<["difficulty" := default PyNone (d !! "difficulty")]>
      (<["type" := default (PyStr "comprehension") (d !! "type")]> ∅))).

(** Writing a JSON text with apostrophes for its double quotes. *)
Definition json (s : string) : string := Py.replace s "'" (Py.chr Py.DQ).

(** A service that is down, and one that replies [text] to every request. *)
Definition service_down (message : string) (r : request) : result string :=
  Err (Raise OtherException message).
Definition service_replying (text : string) (r : request) : result string := Ok text.

(** The marker [answer_question] splits the reply at. *)
Definition marker : string := "Justification:".


(** ** question_generator.py: questions of one type *)

Module QuestionTypes.

Definition comprehension_prompt : string :=
  "Generate a question that tests understanding of the main concepts in the document.".

(** The dictionary [question_prompts]. *)
Definition question_prompts : gmap string string :=
  <["comprehension" := comprehension_prompt]>
    (<["analysis" :=
         "Generate a question that requires analyzing relationships or patterns in the document."]>
     (<["inference" :=
          "Generate a question that requires making logical inferences from the document content."]>
      (<["application" :=
           "Generate a question that asks how the information could be applied or used."]> ∅))).

(** [question_prompts.get(question_type, question_prompts['comprehension'])] *)
Definition instruction_for (question_type : string) : string :=
  match question_prompts !! question_type with
  | Some instruction => instruction
  | None => comprehension_prompt
  end.

Definition specific_prompt (instruction truncated_text : string) : string :=
   "
            Based on the following document, "
   +:+ instruction
   +:+ "
            
            Document:
            "
   +:+ truncated_text
   +:+ "
            
            Provide:
            1. A challenging question
            2. Key points for the expected answer
            3. Difficulty level
            
            Question:
            ".

Section WithServices.
Variable encode : string → result (list Z).
Variable decode : list Z → result string.
Variable chat_completion : request → result string.

Definition generate_specific_question_types (document_text question_type : string)
  : gmap string pyobj :=
  try_except
    (truncated_text ← AIAssistant.truncate_text encode decode document_text 2000;
     let prompt := specific_prompt (instruction_for question_type) truncated_text in
     response ← chat_completion
                  (Request QuestionGenerator.model prompt 200 QuestionGenerator.temperature);
     let response_text := Py.strip response in
     mret (QuestionGenerator.of_strings
             (QuestionGenerator.question_dict
                response_text
                ("Answer should be based on " +:+ question_type
                   +:+ " of the document content")
                "Medium" question_type)))
    (λ e, QuestionGenerator.of_strings
            (QuestionGenerator.question_dict
               ("What insights can you gain from this document regarding "
                  +:+ question_type +:+ "?")
               "Answer should be based on document content"
               "Medium" question_type)).

End WithServices.

End QuestionTypes.

(** ** More definitions used to state properties *)

(** The four keys of a question, and a question that has exactly these keys
    with strings under ['question'] and ['expected_answer']. *)
Definition question_keys : gset string :=
  {[ "question"; "expected_answer"; "difficulty"; "type" ]}.

Definition well_shaped (q : gmap string pyobj) : Prop :=
  dom q = question_keys ∧
  ∃ question expected_answer,
    q !! "question" = Some (PyStr question) ∧
    q !! "expected_answer" = Some (PyStr expected_answer).

(** The validation gate on a question of Python values. *)
Definition passes_gate_py (q : gmap string pyobj) : bool :=
  match q !! "question", q !! "expected_answer" with
  | Some (PyStr question), Some (PyStr expected_answer) =>
      (10 <? Py.len (Py.strip question)) && (5 <? Py.len (Py.strip expected_answer))
  | _, _ => false
  end.

(** The question [_parse_questions_manually] makes of a marker line. *)
Definition manual_question (line : string) : gmap string pyobj :=
  <["type" := PyStr "comprehension"]>
    (<["difficulty" := PyStr "Medium"]>
     (<["expected_answer" := PyStr "Based on document content"]>
      (<["question" := PyStr line]> ∅))).

(** The lines of a reply that [_parse_questions_manually] reads as
    questions: stripped, and starting with a marker. *)
Definition marker_lines (response_text : string) : list string :=
  filter (λ line, QuestionGenerator.is_marker_line line = true)
         (Py.strip <$> Py.split_char response_text Py.LF).

(** In the loop of [_parse_questions_manually]: the questions collected so
    far, with the one still open. *)
Definition collected (st : list (gmap string pyobj) * gmap string pyobj)
  : list (gmap string pyobj) :=
  if PyObj.truthy (PyDict st.2) then st.1 ++ [st.2] else st.1.

(** ** document_processor.py *)

(** A file as Streamlit hands it over: its name, its size and its bytes. *)
Record uploaded_file := UploadedFile {
  file_name : string;
  file_size : Z;
  file_bytes : list Byte.byte
}.

(** What [uploaded_file.read().decode(encoding)] does: it returns the text,
    raises [UnicodeDecodeError], or raises something else. *)
Inductive decoding :=
| Decoded (content : string)
| UnicodeDecodeError (message : string)
| DecodingRaised (e : exn).

(** [raise ValueError(message)]; the class of the exception plays no part
    in this module. *)
Definition ValueError (message : string) : exn := Raise OtherException message.

Module DocumentProcessor.

Definition supported_formats : list string := [".pdf"; ".txt"].
Definition max_file_size : Z := 10 * 1024 * 1024.

Fixpoint all_dots (s : string) : bool :=
  match s with
  | EmptyString => true
  | String c s' => Ascii.eqb c "." && all_dots s'
  end.

(** [os.path.splitext(p)], in its POSIX form: the extension starts at the
    last dot of [p], when that dot comes after the last slash and some
    character between the two is not a dot. *)
Definition splitext (p : string) : string * string :=
  let sepIndex := QuestionGenerator.index_or_minus1 (Py.rfind p "/") in
  let dotIndex := QuestionGenerator.index_or_minus1 (Py.rfind p ".") in
  if (sepIndex <? dotIndex) && negb (all_dots (Py.slice p (sepIndex + 1) dotIndex))
  then (Py.take (Z.to_nat dotIndex) p, Py.drop (Z.to_nat dotIndex) p)
  else (p, EmptyString).

(** [x in l] for strings *)
Definition str_in (x : string) (l : list string) : bool := existsb (String.eqb x) l.

Definition validate_file (file : option uploaded_file) : bool * string :=
  match file with
  | None => (false, "No file uploaded")
  | Some f =>
      let file_extension := Py.lower (splitext (file_name f)).2 in
      if negb (str_in file_extension supported_formats) then
        (false,
         "Unsupported file format. Please upload "
           +:+ String.concat ", " supported_formats +:+ " files only.")
      else if max_file_size <? file_size f then
        (false,
         "File size too large. Maximum size allowed is "
           +:+ Py.str_of_int (max_file_size / (1024 * 1024)) +:+ "MB.")
      else (true, EmptyString)
  end.

Definition page_header (page_number : Z) : string :=
  nl +:+ "--- Page " +:+ Py.str_of_int page_number +:+ " ---" +:+ nl.

(** The loop over [enumerate(pdf_reader.pages)]: a page whose extraction
    raises is passed over (after a warning on the page). *)
Fixpoint add_pages (pages : list (result string)) (page_num : Z) (text_content : string)
  : string :=
  match pages with
  | [] => text_content
  | page :: rest =>
      add_pages rest (page_num + 1)
        match page with
        | Ok page_text =>
            if PyObj.truthy (PyStr (Py.strip page_text))
            then text_content +:+ page_header (page_num + 1) +:+ page_text
            else text_content
        | Err _ => text_content
        end
  end.

Definition encodings : list string := ["utf-8"; "utf-16"; "latin-1"; "ascii"].

Section WithLibraries.
(** [PyPDF2.PdfReader(uploaded_file).pages], each page with what its
    [extract_text()] does; and [bytes.decode]. *)
Variable pdf_pages : uploaded_file → result (list (result string)).
Variable decode_bytes : string → list Byte.byte → decoding.

Definition extract_text_from_pdf (f : uploaded_file) : result string :=
  match
    (pages ← pdf_pages f;
     let text_content := add_pages pages 0 EmptyString in
     if negb (PyObj.truthy (PyStr (Py.strip text_content)))
     then Err (ValueError "No text could be extracted from the PDF")
     else Ok text_content)
  with
  | Ok text_content => Ok text_content
  | Err e => Err (ValueError ("Error processing PDF: " +:+ str_of e))
  end.

(** The loop over the encodings, on those that are left. *)
Fixpoint try_encodings (f : uploaded_file) (left : list string) : result string :=
  match left with
  | [] => Err (ValueError "Could not decode the text file with any supported encoding")
  | encoding :: rest =>
      match decode_bytes encoding (file_bytes f) with
      | Decoded content =>
          if PyObj.truthy (PyStr (Py.strip content)) then Ok content
          else try_encodings f rest
      | UnicodeDecodeError _ => try_encodings f rest
      | DecodingRaised e => Err e
      end
  end.

Definition extract_text_from_txt (f : uploaded_file) : result string :=
  match try_encodings f encodings with
  | Ok content => Ok content
  | Err e => Err (ValueError ("Error processing TXT file: " +:+ str_of e))
  end.

(** The test on the extracted text, and the triple returned. *)
Definition checked (text_content : string) : bool * string * string :=
  if negb (PyObj.truthy (PyStr text_content))
     || (Py.len (Py.strip text_content) <? 50)
  then (false, EmptyString, "Document appears to be empty or too short to process")
  else (true, text_content, EmptyString).

Definition process_document (file : option uploaded_file) : bool * string * string :=
  try_except
    (let '(is_valid, error_msg) := validate_file file in
     if negb is_valid then Ok (false, EmptyString, error_msg)
     else
       match file with
       | None => Err (Raise AttributeError "'NoneType' object has no attribute 'name'")
       | Some f =>
           let file_extension := Py.lower (splitext (file_name f)).2 in
           if String.eqb file_extension ".pdf" then
             text_content ← extract_text_from_pdf f;
             Ok (checked text_content)
           else if String.eqb file_extension ".txt" then
             text_content ← extract_text_from_txt f;
             Ok (checked text_content)
           else Ok (false, EmptyString, "Unsupported file format")
       end)
    (λ e, (false, EmptyString, str_of e)).

End WithLibraries.

End DocumentProcessor.

(** The text a page adds to the extracted text: its header with its number
    and its text, or nothing when extraction raised or gave only blanks. *)
Definition page_contribution (page_number : Z) (page : result string) : string :=
  match page with
  | Ok page_text =>
      if PyObj.truthy (PyStr (Py.strip page_text))
      then DocumentProcessor.page_header page_number +:+ page_text
      else EmptyString
  | Err _ => EmptyString
  end.

(** The contributions of the pages, numbered from [first]. *)
Fixpoint pages_text (first : Z) (pages : list (result string)) : string :=
  match pages with
  | [] => EmptyString
  | page :: rest => page_contribution first page +:+ pages_text (first + 1) rest
  end.

(** A text with a character that is not white space. *)
Definition nonblank (s : string) : bool := PyObj.truthy (PyStr (Py.strip s)).

(** An encoding gives nothing for the bytes: decoding raises
    [UnicodeDecodeError], or the text decoded is blank. *)
Definition gives_nothing (d : decoding) : Prop :=
  match d with
  | Decoded content => nonblank content = false
  | UnicodeDecodeError _ => True
  | DecodingRaised _ => False
  end.

(** ** app.py *)

(** The keys of [st.session_state]. *)
Record session := Session {
  document_text : string;
  document_name : string;
  summary : string;
  challenge_questions : list (gmap string pyobj);
  current_question_index : Z;
  challenge_mode : bool;
  question_answered : bool;
  conversation_history : list entry
}.

(** The three displays of a score in [evaluate_answer]. *)
Inductive band := SuccessBand | WarningBand | ErrorBand.

(** The buttons of the page.  [GetAnswer] and [SubmitAnswer] carry the text
    typed beside them, [ProcessDocument] the file chosen. *)
Inductive event :=
| ProcessDocument (file : uploaded_file)
| ClearDocument
| AskAnything
| ChallengeMe
| GetAnswer (question : string)
| SubmitAnswer (user_answer : string)
| SkipQuestion
| NewQuestions
| NextQuestion
| BackToAskAnything
| GenerateNewQuestions.

(** The position [l[i]] reads in a list of [n] items: counted from the end
    for a negative [i], and none ([IndexError]) out of range. *)
Definition list_index (n : nat) (i : Z) : option nat :=
  if (0 <=? i) && (i <? Z.of_nat n) then Some (Z.to_nat i)
  else if (- Z.of_nat n <=? i) && (i <? 0) then Some (Z.to_nat (Z.of_nat n + i))
  else None.

Module App.

(** The session when the script first runs. *)
Definition initial : session :=
  Session EmptyString EmptyString EmptyString [] 0 false false [].

Definition nonempty (s : string) : bool := PyObj.truthy (PyStr s).

(** The display of the score in [evaluate_answer]. *)
Definition score_band (score : Z) : band :=
  if 8 <=? score then SuccessBand
  else if 6 <=? score then WarningBand
  else ErrorBand.

(** The titles and texts of the expanders under "Conversation History":
    [enumerate(reversed(history[-5:]))]. *)
Definition history_view (history : list entry) : list (string * string * string) :=
  imap
    (λ i e,
       ("Q" +:+ Py.str_of_int (Z.of_nat (length history) - Z.of_nat i) +:+ ": "
            +:+ Py.slice (entry_question e) 0 50 +:+ "...",
        "**Question:** " +:+ entry_question e,
        "**Answer:** " +:+ entry_answer e))
    (reverse (slice_from history (-5))).

(** [clear_document] *)
Definition clear_document (st : session) : session :=
  Session EmptyString EmptyString EmptyString [] 0 false false
          (AIAssistant.clear_conversation_history (conversation_history st)).

Section WithServices.
Variable encode : string → result (list Z).
Variable decode : list Z → result string.
Variable chat_completion : request → result string.
Variable json_loads : string → result pyobj.
Variable pdf_pages : uploaded_file → result (list (result string)).
Variable decode_bytes : string → list Byte.byte → decoding.

(** [process_document(uploaded_file)] *)
Definition process_document (file : uploaded_file) (st : session) : session :=
  let '(success, text_content, error_msg) :=
    DocumentProcessor.process_document pdf_pages decode_bytes (Some file) in
  if success then
    Session text_content (file_name file)
            (AIAssistant.generate_summary encode decode chat_completion text_content)
            [] 0 false (question_answered st)
            (AIAssistant.clear_conversation_history (conversation_history st))
  else st.

(** [generate_challenge_questions()] *)
Definition generate_challenge_questions (st : session) : session :=
  if negb (PyObj.truthy (PyList (PyDict <$> challenge_questions st))) then
    let questions :=
      QuestionGenerator.generate_challenge_questions
        encode decode chat_completion json_loads (document_text st) 3 in
    Session (document_text st) (document_name st) (summary st)
            questions 0 (challenge_mode st) false (conversation_history st)
  else st.

(** The branch of "Get Answer" in [display_ask_anything_mode]: the
    answer shown, and the session with the exchange added. *)
Definition get_answer (question : string) (st : session)
  : (string * string) * session :=
  let '(answer, justification) :=
    AIAssistant.answer_question encode decode chat_completion
      question (document_text st) (Some (conversation_history st)) in
  ((answer, justification),
   Session (document_text st) (document_name st) (summary st)
           (challenge_questions st) (current_question_index st)
           (challenge_mode st) (question_answered st)
           (AIAssistant.add_to_conversation_history
              (conversation_history st) question answer)).

Definition set_challenge_mode (mode : bool) (st : session) : session :=
  Session (document_text st) (document_name st) (summary st)
          (challenge_questions st) (current_question_index st)
          mode (question_answered st) (conversation_history st).

Definition set_question_answered (answered : bool) (st : session) : session :=
  Session (document_text st) (document_name st) (summary st)
          (challenge_questions st) (current_question_index st)
          (challenge_mode st) answered (conversation_history st).

(** [challenge_questions[current_idx]] *)
Definition current_question (st : session) : option (gmap string pyobj) :=
  list_index (length (challenge_questions st)) (current_question_index st)
    ≫= λ i, challenge_questions st !! i.

(** What [evaluate_answer] does to the session: it reads
    [question['question']] and [question['expected_answer']], calls the
    evaluation, and sets [question_answered]. *)
Definition evaluate_answer (question : gmap string pyobj) (st : session)
  : result session :=
  _ ← PyObj.getitem (PyDict question) "question";
  _ ← PyObj.getitem (PyDict question) "expected_answer";
  Ok (set_question_answered true st).

(** The branch of "Submit Answer"; an exception ends the run and leaves
    the session as it is. *)
Definition submit_answer (st : session) : session :=
  match current_question st with
  | Some question =>
      match evaluate_answer question st with
      | Ok st' => st'
      | Err _ => st
      end
  | None => st
  end.

(** What [evaluate_answer] displays for the texts of a question: the
    band of the score, the evaluation, the feedback and the score. *)
Definition evaluation_display (question user_answer expected_answer : string)
    (st : session) : band * string * string * Z :=
  let '(evaluation, feedback, score) :=
    AIAssistant.evaluate_user_answer encode decode chat_completion
      question user_answer expected_answer (document_text st) in
  (score_band score, evaluation, feedback, score).

(** [current_question_index += 1; question_answered = False], under the
    test [current_question_index < len(challenge_questions) - 1]. *)
Definition advance (st : session) : session :=
  if current_question_index st <? Z.of_nat (length (challenge_questions st)) - 1 then
    Session (document_text st) (document_name st) (summary st)
            (challenge_questions st) (current_question_index st + 1)
            (challenge_mode st) false (conversation_history st)
  else st.

(** [challenge_questions = []; generate_challenge_questions()] *)
Definition renew_questions (st : session) : session :=
  generate_challenge_questions
    (Session (document_text st) (document_name st) (summary st)
             [] (current_question_index st)
             (challenge_mode st) (question_answered st) (conversation_history st)).

(** The page shows the question at [current_question_index]. *)
Definition shows_question (st : session) : bool :=
  nonempty (document_text st) && challenge_mode st
  && PyObj.truthy (PyList (PyDict <$> challenge_questions st))
  && (current_question_index st <? Z.of_nat (length (challenge_questions st))).

(** The page shows "You've completed all challenge questions!". *)
Definition shows_completion (st : session) : bool :=
  nonempty (document_text st) && challenge_mode st
  && PyObj.truthy (PyList (PyDict <$> challenge_questions st))
  && negb (current_question_index st <? Z.of_nat (length (challenge_questions st))).

(** One run of the script on a click, with [OPENAI_API_KEY] set (without
    it [main] stops before any button).  A button that is not on the page
    cannot be clicked: the session is then left as it is.  "Next
        Question" and "Back to Ask Anything" are drawn by [evaluate_answer],
    under a question that is shown; they are taken here as clickable
    whenever a question is shown, which allows every click the page
    allows. *)
Definition step (st : session) (ev : event) : session :=
  match ev with
  | ProcessDocument file => process_document file st
  | ClearDocument =>
      if nonempty (document_name st) then clear_document st else st
  | AskAnything =>
      if nonempty (document_text st) then set_challenge_mode false st else st
  | ChallengeMe =>
      if nonempty (document_text st)
      then generate_challenge_questions (set_challenge_mode true st) else st
  | GetAnswer question =>
      if nonempty (document_text st) && negb (challenge_mode st) && nonempty question
      then (get_answer question st).2 else st
  | SubmitAnswer user_answer =>
      if shows_question st && nonempty user_answer
      then submit_answer st else st
  | SkipQuestion => if shows_question st then advance st else st
  | NewQuestions => if shows_question st then renew_questions st else st
  | NextQuestion => if shows_question st then advance st else st
  | BackToAskAnything =>
      if shows_question st then set_challenge_mode false st else st
  | GenerateNewQuestions => if shows_completion st then renew_questions st else st
  end.

(** The session after the clicks [events], in their order. *)
Definition run (events : list event) : session := fold_left step events initial.

End WithServices.

End App.

(** What a session keeps from click to click: the index is that of a
    question, or 0 when there is none; there are at most three questions, of
    the shape the generator gives; the history holds at most ten exchanges;
    a document that is loaded has a name and at least 50 characters once
    stripped. *)
Definition session_ok (st : session) : Prop :=
  0 ≤ current_question_index st
  ∧ (current_question_index st = 0
     ∨ current_question_index st < Z.of_nat (length (challenge_questions st)))
  ∧ (length (challenge_questions st) ≤ 3)%nat
  ∧ Forall well_shaped (challenge_questions st)
  ∧ (length (conversation_history st) ≤ 10)%nat
  ∧ (document_text st = EmptyString ∨ 50 ≤ Py.len (Py.strip (document_text st)))
  ∧ (document_name st = EmptyString → document_text st = EmptyString).

(** [os.path.basename(p)], in its POSIX form: what follows the last slash
    of [p]. *)
Definition basename (p : string) : string :=
  Py.drop (Z.to_nat (QuestionGenerator.index_or_minus1 (Py.rfind p "/") + 1)) p.

(** The extensions [validate_file] accepts, in every letter case. *)
Definition accepted_extension (ext : string) : Prop :=
  Py.lower ext = ".pdf" ∨ Py.lower ext = ".txt".

(** ** Lemmas on Python strings and slices *)

(** Closes an equation between closed terms by evaluating both sides. *)
Ltac evaluate :=
  lazymatch goal with
  | |- ?x = ?y => vm_cast_no_check (@eq_refl _ y)
  end.

Section StringLemmas.

Lemma startswith_lower s p :
  Py.startswith s p = true → Py.startswith (Py.lower s) (Py.lower p) = true.
Proof.
  unfold Py.startswith. revert s.
  induction p as [|c p IH]; intros [|a s]; simpl; try done.
  destruct (ascii_dec c a) as [->|]; [|done].
  intros H. destruct (ascii_dec _ _); [|done]. by apply IH.
Qed.

Lemma find_nil p :
  Py.find EmptyString p = if Py.startswith EmptyString p then Some O else None.
Proof. done. Qed.

Lemma find_cons a s p :
  Py.find (String a s) p =
  if Py.startswith (String a s) p then Some O else S <$> Py.find s p.
Proof. done. Qed.

Lemma find_lower s p n :
  Py.find s p = Some n → is_Some (Py.find (Py.lower s) (Py.lower p)).
Proof.
  revert n. induction s as [|a s IH]; intros n.
  - rewrite find_nil. destruct (Py.startswith EmptyString p) eqn:E; [|done].
    intros _. apply startswith_lower in E. change (Py.lower EmptyString) with EmptyString in *.
    rewrite find_nil, E. by eexists.
  - rewrite find_cons. change (Py.lower (String a s)) with (String (Py.lower_char a) (Py.lower s)).
    rewrite find_cons.
    destruct (Py.startswith (String a s) p) eqn:E.
    + intros _. apply startswith_lower in E.
      change (Py.lower (String a s)) with (String (Py.lower_char a) (Py.lower s)) in E.
      rewrite E. by eexists.
    + destruct (Py.find s p) as [m|] eqn:F; [|done]. intros _.
      destruct (IH m eq_refl) as [k Hk]. rewrite Hk.
      by destruct (Py.startswith (String _ _) (Py.lower p)); eexists.
Qed.

Lemma take_app a b : Py.take (String.length a) (a +:+ b) = a.
Proof. induction a as [|c a IH]; simpl; [by destruct b | by rewrite IH]. Qed.

Lemma drop_app a b : Py.drop (String.length a) (a +:+ b) = b.
Proof. induction a as [|c a IH]; simpl; done. Qed.

Lemma drop_add n m s : Py.drop (n + m) s = Py.drop m (Py.drop n s).
Proof.
  revert s. induction n as [|n IH]; intros s; simpl; [done|].
  destruct s; [by destruct m | apply IH].
Qed.

End StringLemmas.

Lemma clamp_nonneg (len : nat) (n : Z) : 0 ≤ n → Py.clamp len n = Nat.min (Z.to_nat n) len.
Proof. intros H. unfold Py.clamp. by rewrite (proj2 (Z.ltb_ge n 0) H). Qed.

Lemma slice_to_nonneg {A} (l : list A) (n : Z) : 0 ≤ n → slice_to l n = take (Z.to_nat n) l.
Proof.
  intros H. unfold slice_to. rewrite clamp_nonneg by done.
  destruct (decide (Z.to_nat n ≤ length l)%nat).
  - by rewrite Nat.min_l.
  - rewrite Nat.min_r by lia. rewrite !take_ge; [done | lia | lia].
Qed.

(** ** The answer and justification split *)

Section SplitAnswerJustification.
Import AIAssistant.

Lemma split_at_marker a b :
  Py.find (a +:+ marker +:+ b) marker = Some (String.length a) →
  split_answer_justification (a +:+ marker +:+ b) = (Py.strip a, Py.strip b).
Proof.
  unfold marker. intros Hfind. unfold split_answer_justification.
  destruct (find_lower _ _ _ Hfind) as [k Hk].
  change (Py.lower "Justification:") with "justification:" in Hk.
  unfold Py.contains. rewrite Hk. rewrite bool_decide_eq_true_2 by eauto.
  unfold Py.split1. rewrite Hfind.
  by rewrite take_app, drop_add, drop_app, (drop_app "Justification:" b).
Qed.

Lemma split_without_marker r :
  Py.contains (Py.lower r) "justification:" = false →
  split_answer_justification r = (r, "Response is grounded in the document content.").
Proof. intros H. unfold split_answer_justification. by rewrite H. Qed.

End SplitAnswerJustification.

(** C1, as the code has it.  When the reply contains the marker
    ["Justification:"] in exactly this letter case, the reply is split at the
    first occurrence and the two parts, stripped, are the answer and the
    justification, also when one of them is empty.  When the reply contains
    the marker in no letter case, the whole reply is the answer, with the
    justification "Response is grounded in the document content.".  The
    function is total.  The two replies of the specification give the results
    it states. *)
Theorem split_answer_justification_spec (r : string) :
  (∀ a b, r = a +:+ marker +:+ b → Py.find r marker = Some (String.length a) →
     AIAssistant.split_answer_justification r = (Py.strip a, Py.strip b)) ∧
  (Py.contains (Py.lower r) (Py.lower marker) = false →
     AIAssistant.split_answer_justification r
     = (r, "Response is grounded in the document content.")) ∧
  AIAssistant.split_answer_justification
    ("Answer text." +:+ nl +:+ "Justification: because X")
  = ("Answer text.", "because X") ∧
  AIAssistant.split_answer_justification "Just an answer, no marker"
  = ("Just an answer, no marker", "Response is grounded in the document content.").
Proof.
  split; [|split; [|split]].
  - intros a b -> Hfind. by apply split_at_marker.
  - apply split_without_marker.
  - by vm_compute.
  - by vm_compute.
Qed.

Lemma split_answer_justification_spec_witness :
  AIAssistant.split_answer_justification ("The sky." +:+ nl +:+ "Justification: page 2")
  = ("The sky.", "page 2") ∧
  AIAssistant.split_answer_justification "No reason given"
  = ("No reason given", "Response is grounded in the document content.").
Proof.
  split.
  - exact (proj1 (split_answer_justification_spec _)
             ("The sky." +:+ nl) " page 2" eq_refl eq_refl).
  - exact (proj1 (proj2 (split_answer_justification_spec "No reason given")) eq_refl).
Defined.

(** C1 as stated fails.  A reply with the marker in lower case and text on
    both sides is not split: it comes back whole, with a second generic
    justification.  A reply that starts with the marker is split although its
    first part is empty. *)
Lemma split_answer_justification_counterexample :
  let reply := "Answer text." +:+ nl +:+ "justification: because X" in
  Py.contains (Py.lower reply) "justification:" = true ∧
  AIAssistant.split_answer_justification reply
  = (reply, "Based on the document content provided.") ∧
  AIAssistant.split_answer_justification reply ≠ ("Answer text.", "because X") ∧
  AIAssistant.split_answer_justification "Justification: because X"
  = (EmptyString, "because X").
Proof. vm_compute. repeat split; done. Qed.

(** ** The conversation history *)

Lemma add_last10 (l : list entry) (q a : string) :
  AIAssistant.add_to_conversation_history (last10 l) q a = last10 (l ++ [Entry q a]).
Proof.
  unfold AIAssistant.add_to_conversation_history, last10.
  rewrite !length_app, length_drop. simpl.
  destruct (decide (length l < 10)%nat) as [Hlt|Hge].
  - replace (length l - 10)%nat with O by lia.
    replace (length l + 1 - 10)%nat with O by lia.
    rewrite !drop_0. by rewrite (proj2 (Z.ltb_ge _ _)) by lia.
  - rewrite (proj2 (Z.ltb_lt _ _)) by lia.
    replace (length l + 1 - 10)%nat with (S (length l - 10)) by lia.
    rewrite !drop_app_le by lia.
    destruct (drop (length l - 10) l) as [|x rest] eqn:E.
    + apply (f_equal length) in E. rewrite length_drop in E. simpl in E. lia.
    + simpl. f_equal.
      change (S (length l - 10)) with (1 + (length l - 10))%nat.
      rewrite Nat.add_comm, <- drop_drop, E. done.
Qed.

Lemma appends_last10 (exchanges : list (string * string)) (l : list entry) :
  appends (last10 l) exchanges = last10 (l ++ (to_entry <$> exchanges)).
Proof.
  revert l. induction exchanges as [|[q a] es IH]; intros l.
  - by rewrite app_nil_r.
  - unfold appends in *. simpl. rewrite add_last10, IH.
    by rewrite <- app_assoc.
Qed.

(** C2.  Starting from the empty history, after any sequence of calls of
    [add_to_conversation_history] the history has at most 10 entries and
    holds the last ten exchanges appended (all of them when there were
    fewer), in the order they were appended; after eleven calls it holds the
    second to the eleventh. *)
Theorem conversation_history_capacity (exchanges : list (string * string)) :
  (length (appends [] exchanges) ≤ 10)%nat ∧
  appends [] exchanges
  = drop (length exchanges - 10) (to_entry <$> exchanges) ∧
  (∀ e1 e2 e3 e4 e5 e6 e7 e8 e9 e10 e11 : string * string,
     appends [] [e1; e2; e3; e4; e5; e6; e7; e8; e9; e10; e11]
     = to_entry <$> [e2; e3; e4; e5; e6; e7; e8; e9; e10; e11]).
Proof.
  assert (H : ∀ es, appends [] es = drop (length es - 10) (to_entry <$> es)).
  { intros es. change (@nil entry) with (last10 []).
    rewrite appends_last10. unfold last10. simpl. by rewrite length_fmap. }
  split; [|split].
  - rewrite H, length_drop, length_fmap. lia.
  - apply H.
  - intros. by rewrite H.
Qed.

(** ** The token budget *)

Section TokenBudget.
Variable encode : string → result (list Z).
Variable decode : list Z → result string.

Lemma truncate_text_within_budget (text : string) (k n : Z) :
  AIAssistant.count_tokens encode text = Ok n → n ≤ k →
  AIAssistant.truncate_text encode decode text k = Ok text.
Proof.
  unfold AIAssistant.count_tokens, AIAssistant.truncate_text.
  destruct (encode text) as [tokens|e]; simpl; [|done].
  intros [= <-] Hle. by rewrite (proj2 (Z.leb_le _ _) Hle).
Qed.

(** C7.  A text whose token count is at most the ceiling is returned
    unchanged. *)
Theorem truncate_text_identity (text : string) (k n : Z) :
  AIAssistant.count_tokens encode text = Ok n → n ≤ k →
  AIAssistant.truncate_text encode decode text k = Ok text.
Proof. apply truncate_text_within_budget. Qed.

End TokenBudget.

Lemma truncate_text_identity_witness :
  AIAssistant.truncate_text CharTokenizer.encode CharTokenizer.decode "hello" 5 = Ok "hello".
Proof. apply (truncate_text_identity _ _ "hello" 5 5); [reflexivity | lia]. Defined.


Section Idempotence.
Variable encode : string → result (list Z).
Variable decode : list Z → result string.

(** The tokenizer encodes the decoding of any tokens into no more tokens
    than there were. *)
Hypothesis reencode_no_longer :
  ∀ (tokens : list Z) (s : string),
    decode tokens = Ok s →
    ∃ tokens', encode s = Ok tokens' ∧ (length tokens' ≤ length tokens)%nat.


End Idempotence.




(** ** The parse of an evaluation *)

Lemma startswith_head c s d p : Py.startswith (String c s) (String d p) = true → d = c.
Proof. unfold Py.startswith. simpl. by destruct (ascii_dec d c). Qed.

Lemma last_with_cons marker line lines :
  last_with marker (line :: lines) =
  match last_with marker lines with
  | Some l => Some l
  | None => if Py.startswith line marker then Some line else None
  end.
Proof.
  unfold last_with. rewrite filter_cons.
  destruct (decide _) as [H|H]; cbv beta in H;
    destruct (Py.startswith line marker); try done.
  - by rewrite last_cons.
  - by destruct (last _).
Qed.

Lemma parse_lines_fields lines evaluation feedback score :
  fold_left AIAssistant.parse_line lines (evaluation, feedback, score)
  = (field_of "Evaluation:" evaluation lines,
     field_of "Feedback:" feedback lines,
     score_of score lines).
Proof.
  revert evaluation feedback score.
  induction lines as [|line lines IH]; intros evaluation feedback score; [done|].
  unfold field_of, score_of. rewrite !last_with_cons. simpl.
  destruct (Py.startswith line "Evaluation:") eqn:E1;
    destruct (Py.startswith line "Feedback:") eqn:E2;
    destruct (Py.startswith line "Score:") eqn:E3;
    try (destruct line; [done|];
         repeat match goal with
                | H : Py.startswith (String _ _) (String _ _) = true |- _ =>
                    apply startswith_head in H
                end; congruence);
    rewrite IH; unfold field_of, score_of;
    by repeat destruct (last_with _ lines).
Qed.

Local Arguments Py.startswith : simpl never.

Lemma find_none_cons c s p : Py.find (String c s) p = None → Py.find s p = None.
Proof.
  rewrite find_cons. destruct (Py.startswith _ _); [done|].
  by destruct (Py.find s p).
Qed.

Lemma replace_from_absent k s old new :
  Py.find s old = None → Py.replace_from k s old new = Py.drop k s.
Proof.
  revert k. induction s as [|c s IH]; intros k Hfind.
  - by destruct k.
  - pose proof (find_none_cons _ _ _ Hfind) as Hs.
    destruct k as [|k]; simpl.
    + rewrite find_cons in Hfind.
      destruct (Py.startswith (String c s) old); [done|].
      by rewrite (IH O Hs).
    + by apply IH.
Qed.

(** When the marker occurs at the start of the line and nowhere after it,
    removing its occurrences leaves the text after it. *)
Lemma unmarked_text_after marker line :
  marker ≠ EmptyString →
  Py.startswith line marker = true →
  Py.find (Py.drop 1 line) marker = None →
  unmarked marker line = Py.strip (Py.drop (String.length marker) line).
Proof.
  intros Hne Hstart Hrest. unfold unmarked, Py.replace. f_equal.
  destruct line as [|c line].
  { by destruct marker. }
  simpl in Hrest. simpl. rewrite Hstart. simpl.
  rewrite replace_from_absent by done.
  destruct marker as [|m marker]; [done|]. simpl. by rewrite Nat.sub_0_r.
Qed.

(** C5, as the code has it.  The reply is split into lines; each of
    evaluation, feedback and score is taken from the last line that starts
    with its marker, and keeps its default ("Partially Correct", the whole
    reply, 5) when no line does.  The text taken from a line is the line
    without any occurrence of the marker, stripped: the text after the marker
    when the marker does not occur again in the line.  The score is that text
    read as an integer, or 5 when it is not one.  The two replies of the
    specification give the results it states. *)
Theorem parse_evaluation_spec (full_response : string) :
  let lines := Py.split_char full_response Py.LF in
  AIAssistant.parse_evaluation full_response
  = (field_of "Evaluation:" "Partially Correct" lines,
     field_of "Feedback:" full_response lines,
     score_of 5 lines) ∧
  (∀ marker line,
     marker ≠ EmptyString →
     Py.startswith line marker = true →
     Py.find (Py.drop 1 line) marker = None →
     unmarked marker line = Py.strip (Py.drop (String.length marker) line)) ∧
  AIAssistant.parse_evaluation
    ("Evaluation: Correct" +:+ nl +:+ "Feedback: Good job" +:+ nl +:+ "Score: 9")
  = ("Correct", "Good job", 9) ∧
  AIAssistant.parse_evaluation "garbage text" = ("Partially Correct", "garbage text", 5).
Proof.
  split; [|split; [|split]].
  - apply parse_lines_fields.
  - apply unmarked_text_after.
  - by vm_compute.
  - by vm_compute.
Qed.

Lemma parse_evaluation_spec_witness :
  unmarked "Score:" "Score: 9" = Py.strip (Py.drop 6 "Score: 9").
Proof.
  apply (proj1 (proj2 (parse_evaluation_spec EmptyString)) "Score:" "Score: 9");
    [discriminate | reflexivity | reflexivity].
Defined.

(** C5 as stated fails.  On the line "Score:Score: 7" the text after the
    marker is "Score: 7", which is not an integer, yet the score is 7 and not
    5: every occurrence of the marker is removed before the text is read. *)
Lemma parse_evaluation_counterexample :
  let line := "Score:Score: 7" in
  Py.startswith line "Score:" = true ∧
  Py.int (Py.drop 6 line) = None ∧
  AIAssistant.parse_evaluation line = ("Partially Correct", line, 7).
Proof. by vm_compute. Qed.

(** ** Failures of the service *)

Lemma try_except_raises {A B} (t : result string) (c : string → result B)
    (k : B → A) (h : exn → A) (e : exn) :
  t = Err e ∨ (∃ x, t = Ok x ∧ c x = Err e) →
  try_except (x ← t; r ← c x; mret (k r)) h = h e.
Proof. intros [->|(x & -> & H)]; simpl; [done|]. by rewrite H. Qed.

Section Flows.
Variable encode : string → result (list Z).
Variable decode : list Z → result string.
Variable chat_completion : request → result string.

(** C6.  When the truncation or the service call raises [e], each of
    [generate_summary], [answer_question] and [evaluate_user_answer]
    returns a value: the summary is the error text, the answer is the error
    text with an empty justification, and the evaluation is "Error" with
    the error text and the score 0.  In a reply that was received, a score
    that is not an integer gives 5. *)
Theorem flows_return_error_values (e : exn) :
  (∀ document_text,
     flow_raises encode decode chat_completion document_text 2500
       AIAssistant.summary_prompt 200 e →
     AIAssistant.generate_summary encode decode chat_completion document_text
     = "Error generating summary: " +:+ str_of e) ∧
  (∀ question document_text context_history,
     flow_raises encode decode chat_completion document_text 2500
       (λ t, AIAssistant.answer_prompt t (AIAssistant.context_of context_history) question)
       400 e →
     AIAssistant.answer_question encode decode chat_completion
       question document_text context_history
     = ("Error answering question: " +:+ str_of e, EmptyString)) ∧
  (∀ question user_answer correct_info document_text,
     flow_raises encode decode chat_completion document_text 2000
       (λ t, AIAssistant.evaluation_prompt t question correct_info user_answer) 300 e →
     AIAssistant.evaluate_user_answer encode decode chat_completion
       question user_answer correct_info document_text
     = ("Error", "Error evaluating answer: " +:+ str_of e, 0)) ∧
  (∀ question user_answer correct_info document_text truncated_text response line,
     AIAssistant.truncate_text encode decode document_text 2000 = Ok truncated_text →
     chat_completion
       (Request AIAssistant.model
          (AIAssistant.evaluation_prompt truncated_text question correct_info user_answer)
          300 AIAssistant.temperature) = Ok response →
     last_with "Score:" (Py.split_char (Py.strip response) Py.LF) = Some line →
     Py.int (unmarked "Score:" line) = None →
     (AIAssistant.evaluate_user_answer encode decode chat_completion
        question user_answer correct_info document_text).2 = 5).
Proof.
  split; [|split; [|split]].
  - intros doc H. unfold AIAssistant.generate_summary.
    by rewrite (try_except_raises _ _ Py.strip _ e H).
  - intros q doc h H. unfold AIAssistant.answer_question.
    by rewrite (try_except_raises _ _
                  (λ r, AIAssistant.split_answer_justification (Py.strip r)) _ e H).
  - intros q ua ci doc H. unfold AIAssistant.evaluate_user_answer.
    by rewrite (try_except_raises _ _
                  (λ r, AIAssistant.parse_evaluation (Py.strip r)) _ e H).
  - intros q ua ci doc t r line Ht Hr Hlast Hint.
    unfold AIAssistant.evaluate_user_answer. rewrite Ht. simpl. rewrite Hr. simpl.
    unfold AIAssistant.parse_evaluation. rewrite parse_lines_fields. simpl.
    unfold score_of. by rewrite Hlast, Hint.
Qed.

End Flows.

Lemma flows_return_error_values_witness :
  let down := service_down "Connection error." in
  AIAssistant.generate_summary CharTokenizer.encode CharTokenizer.decode down "A document."
  = "Error generating summary: Connection error." ∧
  AIAssistant.answer_question CharTokenizer.encode CharTokenizer.decode down
    "Why?" "A document." None
  = ("Error answering question: Connection error.", EmptyString) ∧
  AIAssistant.evaluate_user_answer CharTokenizer.encode CharTokenizer.decode down
    "Why?" "Because." "A reason." "A document."
  = ("Error", "Error evaluating answer: Connection error.", 0) ∧
  (AIAssistant.evaluate_user_answer CharTokenizer.encode CharTokenizer.decode
     (service_replying "Score: high") "Why?" "Because." "A reason." "A document.").2 = 5.
Proof.
  pose proof (flows_return_error_values CharTokenizer.encode CharTokenizer.decode
                (service_down "Connection error.")
                (Raise OtherException "Connection error.")) as (Hs & Ha & He & _).
  pose proof (flows_return_error_values CharTokenizer.encode CharTokenizer.decode
                (service_replying "Score: high")
                (Raise OtherException "Connection error.")) as (_ & _ & _ & H5).
  split; [|split; [|split]].
  - apply Hs. right. eexists. split; reflexivity.
  - apply Ha. right. eexists. split; reflexivity.
  - apply He. right. eexists. split; reflexivity.
  - eapply H5; reflexivity.
Defined.

(** ** The fallback questions *)

Section Fallback.
Variable encode : string → result (list Z).
Variable decode : list Z → result string.
Variable chat_completion : request → result string.
Variable json_loads : string → result pyobj.

Lemma generate_on_service_failure (document_text truncated_text : string)
    (num_questions : Z) (e : exn) :
  AIAssistant.truncate_text encode decode document_text 2500 = Ok truncated_text →
  chat_completion
    (Request QuestionGenerator.model
       (QuestionGenerator.questions_prompt truncated_text num_questions)
       800 QuestionGenerator.temperature) = Err e →
  QuestionGenerator.generate_challenge_questions
    encode decode chat_completion json_loads document_text num_questions
  = QuestionGenerator._generate_fallback_questions document_text num_questions.
Proof.
  intros Ht Hc. unfold QuestionGenerator.generate_challenge_questions.
  rewrite Ht. simpl. by rewrite Hc.
Qed.

(** C3.  When the service call of [generate_challenge_questions] fails,
    the result is the static fallback list cut to the number requested: all
    three questions for the default request of 3, the first [n] when
    [0 ≤ n].  The list has three entries, of difficulties Easy, Medium and
    Hard in this order and of types comprehension, analysis and
    inference. *)
Theorem fallback_on_service_failure (document_text truncated_text : string)
    (num_questions : Z) (e : exn) :
  AIAssistant.truncate_text encode decode document_text 2500 = Ok truncated_text →
  chat_completion
    (Request QuestionGenerator.model
       (QuestionGenerator.questions_prompt truncated_text num_questions)
       800 QuestionGenerator.temperature) = Err e →
  let fallback := QuestionGenerator.of_strings <$> QuestionGenerator.fallback_questions in
  let result :=
    QuestionGenerator.generate_challenge_questions
      encode decode chat_completion json_loads document_text num_questions in
  result = slice_to fallback num_questions ∧
  (num_questions = 3 → result = fallback) ∧
  (0 ≤ num_questions → result = take (Z.to_nat num_questions) fallback) ∧
  length fallback = 3%nat ∧
  (λ q, q !! "difficulty") <$> fallback
  = [Some (PyStr "Easy"); Some (PyStr "Medium"); Some (PyStr "Hard")] ∧
  (λ q, q !! "type") <$> fallback
  = [Some (PyStr "comprehension"); Some (PyStr "analysis"); Some (PyStr "inference")].
Proof.
  intros Ht Hc fallback result.
  assert (Hr : result = slice_to fallback num_questions).
  { unfold result. by rewrite (generate_on_service_failure _ _ _ _ Ht Hc). }
  split; [done|]. split; [|split; [|split; [|split]]].
  - intros ->. by rewrite Hr.
  - intros Hn. by rewrite Hr, slice_to_nonneg.
  - done.
  - evaluate.
  - evaluate.
Qed.

End Fallback.

Lemma fallback_on_service_failure_witness :
  QuestionGenerator.generate_challenge_questions
    CharTokenizer.encode CharTokenizer.decode (service_down "Connection error.")
    JsonFragment.loads "A document." 3
  = QuestionGenerator.of_strings <$> QuestionGenerator.fallback_questions.
Proof.
  refine (proj1 (proj2 (fallback_on_service_failure
            CharTokenizer.encode CharTokenizer.decode (service_down "Connection error.")
            JsonFragment.loads "A document." "A document." 3
            (Raise OtherException "Connection error.") _ _)) _); reflexivity.
Defined.

(** ** The JSON branch *)

Lemma all_in_dict (d : gmap string pyobj) :
  QuestionGenerator.all_in (PyDict d) QuestionGenerator.required_keys = Ok (has_required d).
Proof.
  unfold has_required, QuestionGenerator.required_keys. simpl.
  by repeat (destruct (bool_decide _); simpl; [|done]).
Qed.

Lemma cleaned_dict (d : gmap string pyobj) :
  has_required d = true → string_fields d →
  QuestionGenerator.cleaned (PyDict d) = Ok (kept_question d).
Proof.
  intros Hreq Hstr. destruct (Hstr Hreq) as (q & a & Hq & Ha).
  unfold has_required, QuestionGenerator.required_keys in Hreq. simpl in Hreq.
  rewrite !andb_true_iff, !bool_decide_eq_true in Hreq.
  destruct Hreq as (_ & _ & [v Hv] & _).
  unfold QuestionGenerator.cleaned, kept_question. simpl.
  rewrite Hq, Ha. simpl. unfold PyObj.get. rewrite Hv. simpl.
  by destruct (d !! "type").
Qed.

Lemma collect_dicts (ds : list (gmap string pyobj)) (valid_questions : list (gmap string pyobj)) :
  Forall string_fields ds →
  QuestionGenerator.collect (PyDict <$> ds) valid_questions
  = Ok (valid_questions ++ (kept_question <$> filter (λ d, has_required d = true) ds)).
Proof.
  intros Hds. revert valid_questions.
  induction Hds as [|d ds Hd Hds IH]; intros valid_questions.
  - simpl. by rewrite app_nil_r.
  - rewrite fmap_cons. cbn [QuestionGenerator.collect].
    rewrite all_in_dict. cbn [mbind result_bind]. rewrite filter_cons.
    destruct (has_required d) eqn:E.
    + rewrite cleaned_dict by done. cbn [mbind result_bind]. rewrite IH.
      rewrite decide_True by done. by rewrite fmap_cons, <- app_assoc.
    + rewrite IH. by rewrite decide_False by done.
Qed.

(** C4, as the code has it.  When the text between the first opening and
    the last closing bracket of the reply decodes to a JSON array of objects
    in which ['question'] and ['expected_answer'] are strings wherever the
    three required keys are present, and [0 ≤ n], the result keeps, in order,
    the objects that have the three keys, each with ['question'] and
    ['expected_answer'] stripped, ['difficulty'] as it is and ['type'] as it
    is, or "comprehension" when absent, and is cut to its first [n]
    entries. *)
Theorem parse_question_set_spec (json_loads : string → result pyobj)
    (response_text : string) (num_questions : Z) (ds : list (gmap string pyobj)) :
  json_loads (QuestionGenerator.json_text response_text) = Ok (PyList (PyDict <$> ds)) →
  Forall string_fields ds →
  0 ≤ num_questions →
  QuestionGenerator.parse_question_set json_loads response_text num_questions
  = Ok (take (Z.to_nat num_questions)
          (kept_question <$> filter (λ d, has_required d = true) ds)).
Proof.
  intros Hloads Hds Hn. unfold QuestionGenerator.parse_question_set.
  rewrite Hloads. cbn [mbind result_bind PyObj.iter].
  rewrite collect_dicts by done. cbn [mbind result_bind mret result_ret app].
  by rewrite slice_to_nonneg.
Qed.

Lemma parse_question_set_spec_witness :
  QuestionGenerator.parse_question_set JsonFragment.loads
    (json "[{'question':'Q1?','expected_answer':'A1','difficulty':'Easy'}]") 3
  = Ok [QuestionGenerator.of_strings
          (QuestionGenerator.question_dict "Q1?" "A1" "Easy" "comprehension")].
Proof.
  refine (eq_trans
            (parse_question_set_spec JsonFragment.loads _ 3
               [ <["question" := PyStr "Q1?"]>
                   (<["expected_answer" := PyStr "A1"]>
                    (<["difficulty" := PyStr "Easy"]> ∅)) ] _ _ _) _).
  - evaluate.
  - constructor; [|constructor]. intros _. exists "Q1?", "A1". split; evaluate.
  - lia.
  - evaluate.
Defined.

(** C4 as stated fails.  The reply "[1]" decodes to a JSON array, none of
    whose elements has the three keys; the key test raises on the number and
    the caller gets the three fallback questions, not an empty list.  And a
    ['difficulty'] with spaces around it is kept with its spaces. *)
Lemma parse_question_set_counterexample :
  JsonFragment.loads (QuestionGenerator.json_text "[1]") = Ok (PyList [PyInt 1]) ∧
  QuestionGenerator.parse_question_set JsonFragment.loads "[1]" 3
  = Err (Raise TypeError "argument of type 'int' is not iterable") ∧
  QuestionGenerator.generate_challenge_questions
    CharTokenizer.encode CharTokenizer.decode (service_replying "[1]")
    JsonFragment.loads "A document." 3
  = QuestionGenerator.of_strings <$> QuestionGenerator.fallback_questions ∧
  QuestionGenerator.parse_question_set JsonFragment.loads
    (json "[{'question':'Q1?','expected_answer':'A1','difficulty':' Easy '}]") 3
  = Ok [QuestionGenerator.of_strings
          (QuestionGenerator.question_dict "Q1?" "A1" " Easy " "comprehension")].
Proof. split; [|split; [|split]]; evaluate. Qed.

(** ** The validation gate *)

Lemma strip_empty_len : Py.len (Py.strip EmptyString) = 0.
Proof. done. Qed.

Lemma field_longer_than_strings (q : gmap string string) (key : string) (bound : Z) :
  0 ≤ bound →
  QuestionGenerator.field_longer_than (QuestionGenerator.of_strings q) key bound
  = Ok (match q !! key with
        | Some s => bound <? Py.len (Py.strip s)
        | None => false
        end).
Proof.
  intros Hbound.
  unfold QuestionGenerator.field_longer_than, QuestionGenerator.of_strings, PyObj.get.
  cbn [PyObj.getitem]. rewrite lookup_fmap.
  destruct (q !! key) as [s|]; simpl; [|done].
  destruct s as [|c s]; simpl; [|done].
  f_equal. symmetry. apply Z.ltb_ge. by rewrite strip_empty_len.
Qed.

Lemma validate_from_strings (qs : list (gmap string string))
    (validated_questions : list (gmap string pyobj)) :
  QuestionGenerator.validate_from (QuestionGenerator.of_strings <$> qs) validated_questions
  = Ok (validated_questions
        ++ (QuestionGenerator.of_strings <$> filter (λ q, passes_gate q = true) qs)).
Proof.
  revert validated_questions.
  induction qs as [|q qs IH]; intros validated_questions.
  - simpl. by rewrite app_nil_r.
  - rewrite fmap_cons. cbn [QuestionGenerator.validate_from].
    rewrite !field_longer_than_strings by lia.
    rewrite filter_cons.
    destruct (decide (passes_gate q = true)) as [H|H]; unfold passes_gate in H;
      destruct (q !! "question") as [question|];
      destruct (q !! "expected_answer") as [expected_answer|];
      try destruct (10 <? Py.len (Py.strip question));
      try destruct (5 <? Py.len (Py.strip expected_answer));
      try done;
      cbn [mbind result_bind mret result_ret andb]; rewrite IH;
      by rewrite ?fmap_cons, <- ?app_assoc.
Qed.

(** C9.  On records of strings, [validate_questions] returns exactly the
    records that pass the gate (['question'] present with more than 10
    characters once stripped, ['expected_answer'] present with more than 5),
    in their order and as they were; a record whose question is "short" is
    dropped whatever its other fields. *)
Theorem validate_questions_filters (qs : list (gmap string string)) (document_text : string) :
  QuestionGenerator.validate_questions (QuestionGenerator.of_strings <$> qs) document_text
  = Ok (QuestionGenerator.of_strings <$> filter (λ q, passes_gate q = true) qs) ∧
  (∀ expected_answer difficulty type,
     QuestionGenerator.validate_questions
       [QuestionGenerator.of_strings
          (QuestionGenerator.question_dict "short" expected_answer difficulty type)]
       document_text
     = Ok []).
Proof.
  split.
  - unfold QuestionGenerator.validate_questions. by rewrite validate_from_strings.
  - intros a d t. unfold QuestionGenerator.validate_questions.
    change (QuestionGenerator.validate_from
              (QuestionGenerator.of_strings
                 <$> [QuestionGenerator.question_dict "short" a d t]) [] = Ok []).
    rewrite validate_from_strings, filter_cons, filter_nil.
    rewrite decide_False; [done|].
    unfold passes_gate, QuestionGenerator.question_dict.
    rewrite lookup_insert_eq, lookup_insert_ne, lookup_insert_eq by done.
    done.
Qed.

Lemma filter_all {A} (P : A → Prop) `{∀ x, Decision (P x)} (l : list A) :
  Forall P l → filter P l = l.
Proof.
  induction 1 as [|x l Hx Hl IH]; [done|].
  by rewrite filter_cons, decide_True, IH.
Qed.

Lemma fallback_questions_pass :
  Forall (λ q, passes_gate q = true) QuestionGenerator.fallback_questions.
Proof. repeat constructor. Qed.

Lemma slice_to_fmap {A B} (f : A → B) (l : list A) (n : Z) :
  slice_to (f <$> l) n = f <$> slice_to l n.
Proof. unfold slice_to. by rewrite length_fmap, fmap_take. Qed.

(** C10.  Every fallback question passes the validation gate, so
    [validate_questions] returns the fallback list unchanged, whatever the
    document and the number of questions requested; when at least one
    question is requested the list is not empty.  Hence the questions
    generated after a failure of the service pass validation unchanged. *)
Theorem fallback_questions_valid (document_text : string) (num_questions : Z) :
  Forall (λ q, passes_gate q = true) QuestionGenerator.fallback_questions ∧
  QuestionGenerator.validate_questions
    (QuestionGenerator._generate_fallback_questions document_text num_questions)
    document_text
  = Ok (QuestionGenerator._generate_fallback_questions document_text num_questions) ∧
  (1 ≤ num_questions →
   QuestionGenerator._generate_fallback_questions document_text num_questions ≠ []) ∧
  (∀ encode decode chat_completion json_loads truncated_text e,
     AIAssistant.truncate_text encode decode document_text 2500 = Ok truncated_text →
     chat_completion
       (Request QuestionGenerator.model
          (QuestionGenerator.questions_prompt truncated_text num_questions)
          800 QuestionGenerator.temperature) = Err e →
     let questions :=
       QuestionGenerator.generate_challenge_questions
         encode decode chat_completion json_loads document_text num_questions in
     QuestionGenerator.validate_questions questions document_text = Ok questions ∧
     (1 ≤ num_questions → questions ≠ [])).
Proof.
  assert (Hvalid :
    QuestionGenerator.validate_questions
      (QuestionGenerator._generate_fallback_questions document_text num_questions)
      document_text
    = Ok (QuestionGenerator._generate_fallback_questions document_text num_questions)).
  { unfold QuestionGenerator._generate_fallback_questions, QuestionGenerator.validate_questions.
    rewrite slice_to_fmap, validate_from_strings. simpl.
    rewrite filter_all; [done|].
    unfold slice_to. apply Forall_take, fallback_questions_pass. }
  assert (Hne : 1 ≤ num_questions →
    QuestionGenerator._generate_fallback_questions document_text num_questions ≠ []).
  { intros Hn. unfold QuestionGenerator._generate_fallback_questions.
    rewrite slice_to_nonneg by lia.
    destruct (Z.to_nat num_questions) as [|k] eqn:E; [lia|]. done. }
  split; [apply fallback_questions_pass|]. split; [done|]. split; [done|].
  intros encode decode chat_completion json_loads t e Ht Hc questions.
  unfold questions. by rewrite (generate_on_service_failure _ _ _ _ _ _ _ _ Ht Hc).
Qed.

Lemma fallback_questions_valid_witness :
  QuestionGenerator._generate_fallback_questions "A document." 3 ≠ [] ∧
  QuestionGenerator.generate_challenge_questions
    CharTokenizer.encode CharTokenizer.decode (service_down "Connection error.")
    JsonFragment.loads "A document." 3 ≠ [].
Proof.
  destruct (fallback_questions_valid "A document." 3) as (_ & _ & Hne & Hgen).
  split.
  - apply Hne. lia.
  - refine (proj2 (Hgen CharTokenizer.encode CharTokenizer.decode
                     (service_down "Connection error.") JsonFragment.loads
                     "A document." (Raise OtherException "Connection error.") _ _) _);
      [reflexivity | reflexivity | lia].
Defined.

(** ** Further properties: the token budget at its bounds *)

Lemma slice_to_negative {A} (l : list A) (n : Z) :
  n < 0 → slice_to l n = take (length l - Z.to_nat (- n)) l.
Proof.
  intros Hn. unfold slice_to, Py.clamp. rewrite (proj2 (Z.ltb_lt _ _) Hn).
  f_equal. lia.
Qed.

(** X1.  A text over the budget is cut on its tokens: for a ceiling [k ≥ 0]
    the first [k] tokens are decoded; for a negative ceiling every text is
    over the budget and the tokens but the last [-k] are decoded. *)
Theorem truncate_text_over_budget (encode : string → result (list Z))
    (decode : list Z → result string) (text : string) (k : Z) (tokens : list Z) :
  encode text = Ok tokens →
  k < Z.of_nat (length tokens) →
  AIAssistant.truncate_text encode decode text k
  = decode (if 0 <=? k then take (Z.to_nat k) tokens
            else take (length tokens - Z.to_nat (- k)) tokens).
Proof.
  intros He Hk. unfold AIAssistant.truncate_text. rewrite He. simpl.
  rewrite (proj2 (Z.leb_gt _ _) Hk).
  destruct (0 <=? k) eqn:E.
  - rewrite slice_to_nonneg by lia. done.
  - rewrite slice_to_negative by lia. done.
Qed.

Lemma truncate_text_over_budget_witness :
  AIAssistant.truncate_text CharTokenizer.encode CharTokenizer.decode "hello" 2 = Ok "he" ∧
  AIAssistant.truncate_text CharTokenizer.encode CharTokenizer.decode "hello" (-2) = Ok "hel".
Proof.
  split.
  - exact (truncate_text_over_budget CharTokenizer.encode CharTokenizer.decode
             "hello" 2 _ eq_refl eq_refl).
  - exact (truncate_text_over_budget CharTokenizer.encode CharTokenizer.decode
             "hello" (-2) _ eq_refl eq_refl).
Defined.

(** ** Further properties: the history and the prompt context *)

Lemma slice_from_last3 (history : list entry) :
  slice_from history (-3) = drop (length history - 3) history.
Proof. unfold slice_from, Py.clamp. simpl. f_equal. lia. Qed.

Lemma context_of_last3 (history : list entry) :
  AIAssistant.context_of (Some history)
  = AIAssistant.context_of (Some (drop (length history - 3) history)).
Proof.
  destruct history as [|e history]; [done|].
  destruct (drop (length (e :: history) - 3) (e :: history)) as [|e' rest] eqn:E.
  { apply (f_equal length) in E. rewrite length_drop in E. simpl in E. lia. }
  unfold AIAssistant.context_of. rewrite !slice_from_last3, <- E.
  rewrite drop_drop, length_drop. do 2 f_equal.
  simpl. lia.
Qed.

(** X2.  [answer_question] reads only the last three entries of the history
    it is given: the answer is the same with the history cut to them.  No
    history and an empty history give the same answer. *)
Theorem answer_question_uses_last_three (encode : string → result (list Z))
    (decode : list Z → result string) (chat_completion : request → result string)
    (question document_text : string) (history : list entry) :
  AIAssistant.answer_question encode decode chat_completion
    question document_text (Some history)
  = AIAssistant.answer_question encode decode chat_completion
      question document_text (Some (drop (length history - 3) history)) ∧
  AIAssistant.answer_question encode decode chat_completion question document_text None
  = AIAssistant.answer_question encode decode chat_completion
      question document_text (Some []).
Proof.
  split; [|done]. unfold AIAssistant.answer_question.
  by rewrite (context_of_last3 history).
Qed.

(** X3.  One call of [add_to_conversation_history] on any history: the new
    exchange is the last entry; below ten entries nothing is dropped; from
    ten entries on exactly the oldest entry is dropped; a history of at most
    ten entries stays so. *)
Theorem add_to_conversation_history_step (history : list entry) (question answer : string) :
  let history' := AIAssistant.add_to_conversation_history history question answer in
  last history' = Some (Entry question answer) ∧
  ((length history < 10)%nat → history' = history ++ [Entry question answer]) ∧
  ((10 ≤ length history)%nat → history' = tail history ++ [Entry question answer]) ∧
  ((length history ≤ 10)%nat → (length history' ≤ 10)%nat).
Proof.
  unfold AIAssistant.add_to_conversation_history. rewrite length_app. simpl.
  destruct (decide (length history < 10)%nat) as [Hlt|Hge].
  - rewrite (proj2 (Z.ltb_ge _ _)) by lia.
    rewrite last_snoc, length_app. simpl.
    split; [done|]. split; [done|]. split; lia.
  - rewrite (proj2 (Z.ltb_lt _ _)) by lia.
    destruct history as [|e history]; [simpl in Hge; lia|]. simpl.
    rewrite last_snoc, length_app. simpl in *.
    split; [done|]. split; [lia|]. split; [done|lia].
Qed.

Lemma add_to_conversation_history_step_witness :
  AIAssistant.add_to_conversation_history [Entry "q1" "a1"] "q2" "a2"
  = [Entry "q1" "a1"; Entry "q2" "a2"].
Proof.
  apply (proj1 (proj2 (add_to_conversation_history_step [Entry "q1" "a1"] "q2" "a2"))).
  simpl. lia.
Defined.

(** X4.  The cap of ten entries never changes a prompt: the context built
    from the capped history is the context built from all the exchanges. *)
Theorem context_of_capped_history (exchanges : list (string * string)) :
  AIAssistant.context_of (Some (appends [] exchanges))
  = AIAssistant.context_of (Some (to_entry <$> exchanges)).
Proof.
  change (@nil entry) with (last10 []). rewrite appends_last10, app_nil_l.
  rewrite (context_of_last3 (last10 _)), (context_of_last3 (to_entry <$> _)).
  unfold last10. rewrite drop_drop, length_drop. do 3 f_equal. lia.
Qed.

(** ** Further properties: the manual parse *)

Lemma manual_question_truthy (line : string) : PyObj.truthy (PyDict (manual_question line)) = true.
Proof.
  unfold PyObj.truthy, manual_question.
  rewrite bool_decide_eq_false_2; [done|]. apply insert_non_empty.
Qed.

Lemma manual_line_collected (st : list (gmap string pyobj) * gmap string pyobj) (line : string) :
  collected (QuestionGenerator.manual_line st line)
  = collected st
    ++ (if QuestionGenerator.is_marker_line (Py.strip line)
        then [manual_question (Py.strip line)] else []).
Proof.
  destruct st as [questions current]. unfold QuestionGenerator.manual_line.
  destruct (QuestionGenerator.is_marker_line (Py.strip line)); [|by rewrite app_nil_r].
  unfold collected at 2. cbn [fst snd].
  destruct (PyObj.truthy (PyDict current)) eqn:E.
  - unfold collected. cbn [fst snd]. fold (manual_question (Py.strip line)).
    by rewrite manual_question_truthy.
  - assert (current = ∅) as ->.
    { unfold PyObj.truthy in E. apply negb_false_iff, bool_decide_eq_true in E. done. }
    unfold collected. cbn [fst snd]. fold (manual_question (Py.strip line)).
    by rewrite manual_question_truthy.
Qed.

Lemma manual_lines_collected (lines : list string)
    (st : list (gmap string pyobj) * gmap string pyobj) :
  collected (fold_left QuestionGenerator.manual_line lines st)
  = collected st
    ++ (manual_question
          <$> filter (λ line, QuestionGenerator.is_marker_line line = true)
                     (Py.strip <$> lines)).
Proof.
  revert st. induction lines as [|line lines IH]; intros st.
  - simpl. by rewrite app_nil_r.
  - cbn [fold_left]. rewrite IH, manual_line_collected, fmap_cons, filter_cons.
    destruct (QuestionGenerator.is_marker_line (Py.strip line)) eqn:E.
    + rewrite decide_True by done. by rewrite fmap_cons, <- app_assoc.
    + rewrite decide_False by done. by rewrite app_nil_r.
Qed.

Lemma parse_questions_manually_eq (response_text : string) (num_questions : Z) :
  QuestionGenerator._parse_questions_manually response_text num_questions
  = slice_to (manual_question <$> marker_lines response_text) num_questions.
Proof.
  unfold QuestionGenerator._parse_questions_manually.
  pose proof (manual_lines_collected (Py.split_char response_text Py.LF) ([], ∅)) as Hc.
  destruct (fold_left _ _ _) as [questions current].
  unfold collected in Hc. cbn [fst snd] in Hc. by rewrite Hc.
Qed.

(** X5.  [_parse_questions_manually] makes one question of every line that,
    once stripped, starts with ["1."], ["2."], ["3."], ["Question:"] or
    ["Q:"]: the stripped line is the question, with the fixed expected
    answer, difficulty and type; the questions come in the order of the
    lines and are cut to the number requested.  A reply without such a line
    gives no question. *)
Theorem parse_questions_manually_spec (response_text : string) (num_questions : Z) :
  QuestionGenerator._parse_questions_manually response_text num_questions
  = slice_to (manual_question <$> marker_lines response_text) num_questions ∧
  (marker_lines response_text = [] →
   QuestionGenerator._parse_questions_manually response_text num_questions = []).
Proof.
  split; [apply parse_questions_manually_eq|].
  intros Hnone. rewrite parse_questions_manually_eq, Hnone.
  unfold slice_to. simpl. by rewrite take_nil.
Qed.

Lemma parse_questions_manually_spec_witness :
  QuestionGenerator._parse_questions_manually "not json at all" 3 = [].
Proof.
  apply (proj2 (parse_questions_manually_spec "not json at all" 3)). reflexivity.
Defined.

(** ** Further properties: the JSON text of a reply without an opening bracket *)

Lemma rfind_starts (s sub : string) (j : nat) :
  Py.rfind s sub = Some j → Py.startswith (Py.drop j s) sub = true.
Proof.
  revert j. induction s as [|c s IH]; intros j; simpl.
  - destruct (Py.startswith EmptyString sub) eqn:E; [|done]. by intros [= <-].
  - destruct (Py.rfind s sub) as [i|] eqn:R.
    + intros [= <-]. simpl. by apply IH.
    + destruct (Py.startswith (String c s) sub) eqn:E; [|done]. by intros [= <-].
Qed.

Lemma drop_length (j : nat) (s : string) :
  String.length (Py.drop j s) = (String.length s - j)%nat.
Proof.
  revert s. induction j as [|j IH]; intros [|c s]; simpl; try done.
Qed.

Lemma take_one_bracket (s : string) :
  Py.startswith s "]" = true → String.length s = 1%nat → Py.take 1 s = "]".
Proof.
  destruct s as [|c [|d s]]; try done.
  intros H _. apply startswith_head in H. by subst.
Qed.

(** X6.  When the reply has no opening bracket, [find] gives -1 and the
    slice starts at the last character: the text handed to [json.loads] is
    then empty, or the single closing bracket that ends the reply.  It is
    empty when the reply has no closing bracket either. *)
Theorem json_text_without_opening_bracket (response_text : string) :
  Py.find response_text "[" = None →
  (QuestionGenerator.json_text response_text = EmptyString
   ∨ QuestionGenerator.json_text response_text = "]") ∧
  (Py.rfind response_text "]" = None →
   QuestionGenerator.json_text response_text = EmptyString).
Proof.
  intros Hfind. unfold QuestionGenerator.json_text. rewrite Hfind.
  destruct (Py.rfind response_text "]") as [j|] eqn:R.
  - split; [|done].
    pose proof (rfind_starts _ _ _ R) as Hstart.
    assert (Hlen : (j < String.length response_text)%nat).
    { destruct (decide (j < String.length response_text)%nat); [done|].
      assert (String.length (Py.drop j response_text) = O) as H0
        by (rewrite drop_length; lia).
      by destruct (Py.drop j response_text). }
    unfold Py.slice, QuestionGenerator.index_or_minus1, Py.clamp.
    rewrite (proj2 (Z.ltb_lt (-1) 0)) by lia.
    rewrite (proj2 (Z.ltb_ge (Z.of_nat j + 1) 0)) by lia.
    replace (Z.to_nat (Z.max 0 (Z.of_nat (String.length response_text) + -1)))
      with (String.length response_text - 1)%nat by lia.
    replace (Nat.min (Z.to_nat (Z.of_nat j + 1)) (String.length response_text))
      with (S j) by lia.
    destruct (decide (S j = String.length response_text)) as [Heq|Hne].
    + right. replace (S j - (String.length response_text - 1))%nat with 1%nat by lia.
      replace (String.length response_text - 1)%nat with j by lia.
      apply take_one_bracket; [done|]. rewrite drop_length. lia.
    + left. by replace (S j - (String.length response_text - 1))%nat with O by lia.
  - by split; [left|intros _].
Qed.

Lemma json_text_without_opening_bracket_witness :
  QuestionGenerator.json_text "no brackets here" = EmptyString.
Proof.
  apply (proj2 (json_text_without_opening_bracket "no brackets here" eq_refl)).
  reflexivity.
Defined.

(** ** Further properties: what [generate_challenge_questions] returns *)

Lemma length_slice_to {A} (l : list A) (n : Z) :
  0 ≤ n → (length (slice_to l n) ≤ Z.to_nat n)%nat.
Proof. intros Hn. rewrite slice_to_nonneg by done. rewrite length_take. lia. Qed.

Lemma Forall_slice_to {A} (P : A → Prop) (l : list A) (n : Z) :
  Forall P l → Forall P (slice_to l n).
Proof. intros H. unfold slice_to. by apply Forall_take. Qed.

Lemma well_shaped_dict (question expected_answer : string) (difficulty type : pyobj) :
  well_shaped
    (<["question" := PyStr question]>
       (<["expected_answer" := PyStr expected_answer]>
        (<["difficulty" := difficulty]>
         (<["type" := type]> ∅)))).
Proof.
  split.
  - rewrite !dom_insert_L, dom_empty_L. unfold question_keys. set_solver.
  - exists question, expected_answer. split.
    + by rewrite lookup_insert_eq.
    + rewrite lookup_insert_ne by done. by rewrite lookup_insert_eq.
Qed.

Lemma well_shaped_of_strings (question expected_answer difficulty type : string) :
  well_shaped
    (QuestionGenerator.of_strings
       (QuestionGenerator.question_dict question expected_answer difficulty type)).
Proof.
  unfold QuestionGenerator.of_strings, QuestionGenerator.question_dict.
  rewrite !fmap_insert, fmap_empty. apply well_shaped_dict.
Qed.

Lemma well_shaped_manual (line : string) : well_shaped (manual_question line).
Proof.
  split.
  - unfold manual_question. rewrite !dom_insert_L, dom_empty_L.
    unfold question_keys. set_solver.
  - exists line, "Based on document content". unfold manual_question. split.
    + rewrite !lookup_insert_ne by done. by rewrite lookup_insert_eq.
    + rewrite !lookup_insert_ne by done. by rewrite lookup_insert_eq.
Qed.

Lemma well_shaped_fallback :
  Forall well_shaped (QuestionGenerator.of_strings <$> QuestionGenerator.fallback_questions).
Proof. repeat constructor; apply well_shaped_of_strings. Qed.

Lemma cleaned_well_shaped (q : pyobj) (d : gmap string pyobj) :
  QuestionGenerator.cleaned q = Ok d → well_shaped d.
Proof.
  unfold QuestionGenerator.cleaned.
  destruct q as [| | | | |l|m]; try done.
  cbn [PyObj.getitem QuestionGenerator.get mbind result_bind].
  destruct (m !! "question") as [[| | | |question| |]|]; try done.
  cbn [PyObj.strip mbind result_bind].
  destruct (m !! "expected_answer") as [[| | | |expected_answer| |]|]; try done.
  cbn [PyObj.strip mbind result_bind mret result_ret].
  intros [= <-]. apply well_shaped_dict.
Qed.

Lemma collect_well_shaped (items : list pyobj) (valid_questions r : list (gmap string pyobj)) :
  QuestionGenerator.collect items valid_questions = Ok r →
  Forall well_shaped valid_questions → Forall well_shaped r.
Proof.
  revert valid_questions. induction items as [|q items IH]; intros valid_questions.
  - by intros [= <-].
  - cbn [QuestionGenerator.collect].
    destruct (QuestionGenerator.all_in q QuestionGenerator.required_keys) as [[|]|e];
      cbn [mbind result_bind]; [| apply IH | done].
    destruct (QuestionGenerator.cleaned q) as [c|e] eqn:E; cbn [mbind result_bind]; [|done].
    intros Hr Hvalid. apply (IH _ Hr). apply Forall_app. split; [done|].
    constructor; [|constructor]. by eapply cleaned_well_shaped.
Qed.

Lemma parse_question_set_result (json_loads : string → result pyobj)
    (response_text : string) (num_questions : Z) (questions : list (gmap string pyobj)) :
  QuestionGenerator.parse_question_set json_loads response_text num_questions = Ok questions →
  ∃ valid_questions,
    Forall well_shaped valid_questions ∧
    questions = slice_to valid_questions num_questions.
Proof.
  unfold QuestionGenerator.parse_question_set.
  destruct (json_loads _) as [v|e]; cbn [mbind result_bind]; [|done].
  destruct (PyObj.iter v) as [items|e]; cbn [mbind result_bind]; [|done].
  destruct (QuestionGenerator.collect items []) as [valid|e] eqn:E;
    cbn [mbind result_bind mret result_ret]; [|done].
  intros [= <-]. exists valid. split; [|done].
  by apply (collect_well_shaped _ _ _ E).
Qed.

Section Generated.
Variable encode : string → result (list Z).
Variable decode : list Z → result string.
Variable chat_completion : request → result string.
Variable json_loads : string → result pyobj.

(** Every result of [generate_challenge_questions] is a list of
    well-shaped questions cut to the number requested. *)
Lemma generate_result (document_text : string) (num_questions : Z) :
  ∃ questions,
    Forall well_shaped questions ∧
    QuestionGenerator.generate_challenge_questions
      encode decode chat_completion json_loads document_text num_questions
    = slice_to questions num_questions.
Proof.
  unfold QuestionGenerator.generate_challenge_questions,
    QuestionGenerator._generate_fallback_questions.
  pose proof well_shaped_fallback as Hfb.
  destruct (AIAssistant.truncate_text encode decode document_text 2500) as [t|e];
    cbn [mbind result_bind try_except]; [|by eexists].
  destruct (chat_completion _) as [response|e];
    cbn [mbind result_bind try_except]; [|by eexists].
  destruct (QuestionGenerator.parse_question_set _ _ _) as [questions|e] eqn:E.
  - destruct (parse_question_set_result _ _ _ _ E) as (valid & Hvalid & ->).
    by exists valid.
  - destruct (is_JSONDecodeError e); cbn [try_except].
    + rewrite parse_questions_manually_eq.
      eexists. split; [|done].
      apply Forall_fmap, Forall_forall. intros line _. apply well_shaped_manual.
    + by eexists.
Qed.

(** X7.  Whatever the tokenizer, the service and the decoder do,
    [generate_challenge_questions] returns at most the number of questions
    requested, when that number is not negative. *)
Theorem generate_challenge_questions_length (document_text : string) (num_questions : Z) :
  0 ≤ num_questions →
  (length (QuestionGenerator.generate_challenge_questions
             encode decode chat_completion json_loads document_text num_questions)
   ≤ Z.to_nat num_questions)%nat.
Proof.
  intros Hn. destruct (generate_result document_text num_questions) as (qs & _ & ->).
  by apply length_slice_to.
Qed.

(** X8.  Whatever the tokenizer, the service and the decoder do, every
    question [generate_challenge_questions] returns has exactly the keys
    ['question'], ['expected_answer'], ['difficulty'] and ['type'], with
    strings under the first two. *)
Theorem generate_challenge_questions_shape (document_text : string) (num_questions : Z) :
  Forall well_shaped
    (QuestionGenerator.generate_challenge_questions
       encode decode chat_completion json_loads document_text num_questions).
Proof.
  destruct (generate_result document_text num_questions) as (qs & Hqs & ->).
  by apply Forall_slice_to.
Qed.

End Generated.

Lemma generate_challenge_questions_length_witness :
  (length (QuestionGenerator.generate_challenge_questions
             CharTokenizer.encode CharTokenizer.decode
             (service_replying "1. Why?") JsonFragment.loads "A document." 3)
   ≤ 3)%nat.
Proof.
  apply (generate_challenge_questions_length CharTokenizer.encode CharTokenizer.decode
           (service_replying "1. Why?") JsonFragment.loads "A document." 3).
  lia.
Defined.

(** ** Further properties: validation of generated questions *)

Lemma field_longer_than_shaped (q : gmap string pyobj) (key s : string) (bound : Z) :
  0 ≤ bound → q !! key = Some (PyStr s) →
  QuestionGenerator.field_longer_than q key bound = Ok (bound <? Py.len (Py.strip s)).
Proof.
  intros Hbound Hq. unfold QuestionGenerator.field_longer_than, PyObj.get.
  cbn [PyObj.getitem]. rewrite Hq.
  destruct s as [|c s]; simpl; [|done].
  f_equal. symmetry. apply Z.ltb_ge. by rewrite strip_empty_len.
Qed.

Lemma validate_from_shaped (qs validated_questions : list (gmap string pyobj)) :
  Forall well_shaped qs →
  QuestionGenerator.validate_from qs validated_questions
  = Ok (validated_questions ++ filter (λ q, passes_gate_py q = true) qs).
Proof.
  intros Hqs. revert validated_questions.
  induction Hqs as [|q qs (_ & a & b & Ha & Hb) _ IH]; intros validated_questions.
  - simpl. by rewrite app_nil_r.
  - cbn [QuestionGenerator.validate_from].
    rewrite (field_longer_than_shaped q "question" a) by (done || lia).
    cbn [mbind result_bind]. rewrite filter_cons.
    assert (Hgate : passes_gate_py q
                    = (10 <? Py.len (Py.strip a)) && (5 <? Py.len (Py.strip b))).
    { unfold passes_gate_py. by rewrite Ha, Hb. }
    destruct (10 <? Py.len (Py.strip a)).
    + rewrite (field_longer_than_shaped q "expected_answer" b) by (done || lia).
      cbn [mbind result_bind]. rewrite IH.
      destruct (5 <? Py.len (Py.strip b)).
      * rewrite decide_True by done. by rewrite <- app_assoc.
      * by rewrite decide_False by (by rewrite Hgate).
    + cbn [mbind result_bind mret result_ret]. rewrite IH.
      by rewrite decide_False by (by rewrite Hgate).
Qed.

(** X9.  [validate_questions] never raises on what
    [generate_challenge_questions] returns, whatever the tokenizer, the
    service and the decoder do: it returns the generated questions that pass
    the gate, in their order. *)
Theorem validate_generated_questions (encode : string → result (list Z))
    (decode : list Z → result string) (chat_completion : request → result string)
    (json_loads : string → result pyobj) (document_text : string) (num_questions : Z) :
  let questions :=
    QuestionGenerator.generate_challenge_questions
      encode decode chat_completion json_loads document_text num_questions in
  QuestionGenerator.validate_questions questions document_text
  = Ok (filter (λ q, passes_gate_py q = true) questions).
Proof.
  intros questions. unfold QuestionGenerator.validate_questions.
  rewrite validate_from_shaped; [done|].
  unfold questions.
  destruct (generate_result encode decode chat_completion json_loads
              document_text num_questions) as (qs & Hqs & ->).
  by apply Forall_slice_to.
Qed.

(** ** Further properties: questions of one type *)

Lemma instruction_for_unknown (question_type : string) :
  question_type ∉ ["comprehension"; "analysis"; "inference"; "application"] →
  QuestionTypes.instruction_for question_type = QuestionTypes.comprehension_prompt.
Proof.
  intros Hnot. unfold QuestionTypes.instruction_for, QuestionTypes.question_prompts.
  rewrite !lookup_insert_ne, lookup_empty; [done|..];
    intros Heq; apply Hnot; rewrite <- Heq; set_solver.
Qed.

(** X10.  Whatever the tokenizer and the service do,
    [generate_specific_question_types] returns a question with the four
    keys, whose type is the type requested and whose difficulty is "Medium".
    A type that is not one of the four known types is asked for with the
    instruction of "comprehension": the request sent is the one for
    "comprehension" on the truncated text, and the question returned is the
    reply to it, stripped. *)
Theorem generate_specific_question_types_spec (encode : string → result (list Z))
    (decode : list Z → result string) (chat_completion : request → result string)
    (document_text question_type : string) :
  let question :=
    QuestionTypes.generate_specific_question_types
      encode decode chat_completion document_text question_type in
  well_shaped question ∧
  question !! "type" = Some (PyStr question_type) ∧
  question !! "difficulty" = Some (PyStr "Medium") ∧
  (question_type ∉ ["comprehension"; "analysis"; "inference"; "application"] →
   QuestionTypes.instruction_for question_type
   = QuestionTypes.instruction_for "comprehension" ∧
   ∀ truncated_text response,
     AIAssistant.truncate_text encode decode document_text 2000 = Ok truncated_text →
     chat_completion
       (Request QuestionGenerator.model
          (QuestionTypes.specific_prompt
             "Generate a question that tests understanding of the main concepts in the document."
             truncated_text)
          200 QuestionGenerator.temperature) = Ok response →
     question !! "question" = Some (PyStr (Py.strip response)) ∧
     question !! "expected_answer"
     = Some (PyStr ("Answer should be based on " +:+ question_type
                      +:+ " of the document content"))).
Proof.
  intros question.
  assert (H : ∃ q a, question
                     = QuestionGenerator.of_strings
                         (QuestionGenerator.question_dict q a "Medium" question_type)).
  { unfold question, QuestionTypes.generate_specific_question_types.
    destruct (AIAssistant.truncate_text _ _ _ _) as [t|e];
      cbn [mbind result_bind try_except]; [|by eexists _, _].
    destruct (chat_completion _) as [r|e];
      cbn [mbind result_bind mret result_ret try_except]; by eexists _, _. }
  split; [|split; [|split]].
  - destruct H as (q & a & ->). apply well_shaped_of_strings.
  - destruct H as (q & a & ->).
    unfold QuestionGenerator.of_strings, QuestionGenerator.question_dict.
    rewrite !lookup_fmap, !lookup_insert_ne by done. by rewrite lookup_insert_eq.
  - destruct H as (q & a & ->).
    unfold QuestionGenerator.of_strings, QuestionGenerator.question_dict.
    rewrite !lookup_fmap, !lookup_insert_ne by done. by rewrite lookup_insert_eq.
  - clear H. intros Hnot. split; [by rewrite instruction_for_unknown|].
    intros truncated_text response Ht Hr.
    unfold question, QuestionTypes.generate_specific_question_types.
    rewrite Ht. cbn [mbind result_bind].
    rewrite (instruction_for_unknown _ Hnot).
    unfold QuestionTypes.comprehension_prompt. rewrite Hr.
    cbn [mbind result_bind mret result_ret try_except].
    unfold QuestionGenerator.of_strings, QuestionGenerator.question_dict.
    rewrite !lookup_fmap. split.
    + by rewrite lookup_insert_eq.
    + rewrite lookup_insert_ne by done. by rewrite lookup_insert_eq.
Qed.

Lemma generate_specific_question_types_spec_witness :
  QuestionTypes.generate_specific_question_types
    CharTokenizer.encode CharTokenizer.decode (service_replying " Why is it so? ")
    "A document." "synthesis" !! "question"
  = Some (PyStr "Why is it so?").
Proof.
  pose proof (generate_specific_question_types_spec
                CharTokenizer.encode CharTokenizer.decode (service_replying " Why is it so? ")
                "A document." "synthesis") as (_ & _ & _ & H).
  refine (proj1 (proj2 (H _) "A document." " Why is it so? " eq_refl eq_refl)).
  rewrite !not_elem_of_cons. repeat split; try done. apply not_elem_of_nil.
Defined.

(** ** Further properties: document_processor.py *)

Lemma str_app_assoc (a b c : string) : (a +:+ b) +:+ c = a +:+ (b +:+ c).
Proof.
  induction a as [|x a IH]; [done|].
  change (String x ((a +:+ b) +:+ c) = String x (a +:+ (b +:+ c))). by f_equal.
Qed.

Lemma str_app_empty_r (a : string) : a +:+ EmptyString = a.
Proof.
  induction a as [|x a IH]; [done|].
  change (String x (a +:+ EmptyString) = String x a). by f_equal.
Qed.

Lemma add_pages_text (pages : list (result string)) (page_num : Z) (text_content : string) :
  DocumentProcessor.add_pages pages page_num text_content
  = text_content +:+ pages_text (page_num + 1) pages.
Proof.
  revert page_num text_content.
  induction pages as [|page pages IH]; intros page_num text_content;
    cbn [DocumentProcessor.add_pages pages_text].
  - by rewrite str_app_empty_r.
  - rewrite IH. unfold page_contribution.
    destruct page as [page_text|e]; [|reflexivity].
    destruct (PyObj.truthy _); [|reflexivity].
    by rewrite !str_app_assoc.
Qed.

(** X11.  [extract_text_from_pdf], when the reader opens the file: each
    page whose text is not blank adds its header, with its own number
    counted from 1 over all pages, and its text; a page whose extraction
    raises, or whose text is blank, adds nothing.  When nothing is added the
    call raises "Error processing PDF: No text could be extracted from the
    PDF".  A text returned is never blank, and every exception raised has a
    message that starts with "Error processing PDF: ". *)
Theorem extract_text_from_pdf_spec
    (pdf_pages : uploaded_file → result (list (result string))) (f : uploaded_file) :
  (∀ pages,
     pdf_pages f = Ok pages →
     DocumentProcessor.extract_text_from_pdf pdf_pages f
     = if nonblank (pages_text 1 pages) then Ok (pages_text 1 pages)
       else Err (ValueError
                   "Error processing PDF: No text could be extracted from the PDF")) ∧
  (∀ text_content,
     DocumentProcessor.extract_text_from_pdf pdf_pages f = Ok text_content →
     nonblank text_content = true) ∧
  (∀ e,
     DocumentProcessor.extract_text_from_pdf pdf_pages f = Err e →
     ∃ message, str_of e = "Error processing PDF: " +:+ message).
Proof.
  unfold DocumentProcessor.extract_text_from_pdf.
  destruct (pdf_pages f) as [pages|e0]; cbn [mbind result_bind].
  - rewrite add_pages_text.
    change (EmptyString +:+ pages_text (0 + 1) pages) with (pages_text 1 pages).
    fold (nonblank (pages_text 1 pages)).
    destruct (nonblank (pages_text 1 pages)) eqn:E; cbn [negb].
    + split; [by intros pages' [= <-]; rewrite E|].
      split; [by intros t [= <-]|done].
    + split; [by intros pages' [= <-]; rewrite E|].
      split; [done|]. intros e [= <-]. by eexists.
  - split; [done|]. split; [done|]. intros e [= <-]. by eexists.
Qed.

Lemma extract_text_from_pdf_spec_witness :
  DocumentProcessor.extract_text_from_pdf
    (λ _, Ok [Ok "First page."; Err (ValueError "damaged"); Ok "Third page."])
    (UploadedFile "paper.pdf" 1000 [])
  = Ok (nl +:+ "--- Page 1 ---" +:+ nl +:+ "First page."
        +:+ nl +:+ "--- Page 3 ---" +:+ nl +:+ "Third page.").
Proof.
  exact (proj1 (extract_text_from_pdf_spec
                  (λ _, Ok [Ok "First page."; Err (ValueError "damaged"); Ok "Third page."])
                  (UploadedFile "paper.pdf" 1000 [])) _ eq_refl).
Defined.

Lemma try_encodings_ok (decode_bytes : string → list Byte.byte → decoding)
    (f : uploaded_file) (left : list string) (content : string) :
  DocumentProcessor.try_encodings decode_bytes f left = Ok content →
  ∃ (i : nat) (encoding : string),
    left !! i = Some encoding ∧
    decode_bytes encoding (file_bytes f) = Decoded content ∧
    nonblank content = true ∧
    ∀ (j : nat) (earlier : string),
      (j < i)%nat → left !! j = Some earlier →
      gives_nothing (decode_bytes earlier (file_bytes f)).
Proof.
  induction left as [|encoding left IH]; [done|].
  cbn [DocumentProcessor.try_encodings].
  destruct (decode_bytes encoding (file_bytes f)) as [c|m|e] eqn:E; [| |done].
  - fold (nonblank c). destruct (nonblank c) eqn:N.
    + intros [= <-]. exists O, encoding. repeat split; try done. intros j earlier Hj. lia.
    + intros H. destruct (IH H) as (i & enc & Hi & Hd & Hn & Hearlier).
      exists (S i), enc. repeat split; try done.
      intros [|j] earlier Hj Hl.
      * injection Hl as <-. by rewrite E.
      * apply (Hearlier j); [lia|done].
  - intros H. destruct (IH H) as (i & enc & Hi & Hd & Hn & Hearlier).
    exists (S i), enc. repeat split; try done.
    intros [|j] earlier Hj Hl.
    * injection Hl as <-. by rewrite E.
    * apply (Hearlier j); [lia|done].
Qed.

Lemma try_encodings_nothing (decode_bytes : string → list Byte.byte → decoding)
    (f : uploaded_file) (left : list string) :
  Forall (λ encoding, gives_nothing (decode_bytes encoding (file_bytes f))) left →
  DocumentProcessor.try_encodings decode_bytes f left
  = Err (ValueError "Could not decode the text file with any supported encoding").
Proof.
  induction 1 as [|encoding left Hn _ IH]; [done|].
  cbn [DocumentProcessor.try_encodings].
  destruct (decode_bytes encoding (file_bytes f)) as [c|m|e]; [|done|done].
  unfold gives_nothing, nonblank in Hn. by rewrite Hn.
Qed.

(** X12.  [extract_text_from_txt] tries utf-8, utf-16, latin-1 and ascii in
    this order.  A text it returns is the decoding of the file under one of
    them, is not blank, and every encoding before that one raised
    [UnicodeDecodeError] or gave a blank text.  When every encoding does so,
    the call raises "Error processing TXT file: Could not decode the text
    file with any supported encoding". *)
Theorem extract_text_from_txt_spec
    (decode_bytes : string → list Byte.byte → decoding) (f : uploaded_file) :
  (∀ content,
     DocumentProcessor.extract_text_from_txt decode_bytes f = Ok content →
     ∃ (i : nat) (encoding : string),
       DocumentProcessor.encodings !! i = Some encoding ∧
       decode_bytes encoding (file_bytes f) = Decoded content ∧
       nonblank content = true ∧
       ∀ (j : nat) (earlier : string),
         (j < i)%nat → DocumentProcessor.encodings !! j = Some earlier →
         gives_nothing (decode_bytes earlier (file_bytes f))) ∧
  (Forall (λ encoding, gives_nothing (decode_bytes encoding (file_bytes f)))
          DocumentProcessor.encodings →
   DocumentProcessor.extract_text_from_txt decode_bytes f
   = Err (ValueError
            ("Error processing TXT file: "
               +:+ "Could not decode the text file with any supported encoding"))).
Proof.
  unfold DocumentProcessor.extract_text_from_txt. split.
  - intros content.
    destruct (DocumentProcessor.try_encodings _ _ _) as [c|e] eqn:E; [|done].
    intros [= <-]. by apply try_encodings_ok.
  - intros H. by rewrite try_encodings_nothing.
Qed.

Lemma extract_text_from_txt_spec_witness :
  DocumentProcessor.extract_text_from_txt
    (λ _ _, UnicodeDecodeError "invalid start byte") (UploadedFile "notes.txt" 4 [])
  = Err (ValueError
           ("Error processing TXT file: "
              +:+ "Could not decode the text file with any supported encoding")).
Proof.
  apply (proj2 (extract_text_from_txt_spec
                  (λ _ _, UnicodeDecodeError "invalid start byte")
                  (UploadedFile "notes.txt" 4 []))).
  repeat constructor.
Defined.

Lemma extract_text_from_pdf_error
    (pdf_pages : uploaded_file → result (list (result string))) (f : uploaded_file) (e : exn) :
  DocumentProcessor.extract_text_from_pdf pdf_pages f = Err e →
  ∃ message, str_of e = "Error processing PDF: " +:+ message.
Proof.
  unfold DocumentProcessor.extract_text_from_pdf.
  destruct (_ ≫= _) as [t|e0]; [done|]. intros [= <-]. by eexists.
Qed.

Lemma extract_text_from_txt_error
    (decode_bytes : string → list Byte.byte → decoding) (f : uploaded_file) (e : exn) :
  DocumentProcessor.extract_text_from_txt decode_bytes f = Err e →
  ∃ message, str_of e = "Error processing TXT file: " +:+ message.
Proof.
  unfold DocumentProcessor.extract_text_from_txt.
  destruct (DocumentProcessor.try_encodings _ _ _) as [t|e0]; [done|].
  intros [= <-]. by eexists.
Qed.

Lemma validate_file_valid (file : option uploaded_file) (error_msg : string) :
  DocumentProcessor.validate_file file = (true, error_msg) →
  error_msg = EmptyString ∧
  ∃ f, file = Some f ∧
       DocumentProcessor.str_in
         (Py.lower (DocumentProcessor.splitext (file_name f)).2)
         DocumentProcessor.supported_formats = true ∧
       file_size f ≤ DocumentProcessor.max_file_size.
Proof.
  unfold DocumentProcessor.validate_file. destruct file as [f|]; [|done].
  destruct (DocumentProcessor.str_in _ _) eqn:E; cbn [negb]; [|done].
  destruct (DocumentProcessor.max_file_size <? file_size f) eqn:S; [done|].
  intros [= <-]. split; [done|]. exists f. repeat split; [done|].
  by apply Z.ltb_ge.
Qed.

Lemma validate_file_invalid (file : option uploaded_file) (error_msg : string) :
  DocumentProcessor.validate_file file = (false, error_msg) →
  error_msg = "No file uploaded"
  ∨ error_msg = "Unsupported file format. Please upload .pdf, .txt files only."
  ∨ error_msg = "File size too large. Maximum size allowed is 10MB.".
Proof.
  unfold DocumentProcessor.validate_file. destruct file as [f|].
  - destruct (DocumentProcessor.str_in _ _); cbn [negb].
    + destruct (DocumentProcessor.max_file_size <? file_size f); [|done].
      intros [= <-]. by right; right.
    + intros [= <-]. by right; left.
  - intros [= <-]. by left.
Qed.

Lemma checked_spec (text_content : string) :
  (DocumentProcessor.checked text_content = (true, text_content, EmptyString)
   ∧ 50 ≤ Py.len (Py.strip text_content))
  ∨ DocumentProcessor.checked text_content
    = (false, EmptyString, "Document appears to be empty or too short to process").
Proof.
  unfold DocumentProcessor.checked.
  destruct (negb _); cbn [orb]; [by right|].
  destruct (Py.len (Py.strip text_content) <? 50) eqn:E; [by right|].
  left. split; [done|]. by apply Z.ltb_ge.
Qed.

Section ProcessDocument.
Variable pdf_pages : uploaded_file → result (list (result string)).
Variable decode_bytes : string → list Byte.byte → decoding.

(** The cases of [process_document]. *)
Lemma process_document_cases (file : option uploaded_file) :
  let r := DocumentProcessor.process_document pdf_pages decode_bytes file in
  (* refused by [validate_file] *)
  (∃ error_msg, DocumentProcessor.validate_file file = (false, error_msg)
                ∧ r = (false, EmptyString, error_msg))
  (* an extraction raised *)
  ∨ (∃ prefix message,
       (prefix = "Error processing PDF: " ∨ prefix = "Error processing TXT file: ")
       ∧ r = (false, EmptyString, prefix +:+ message))
  (* the extracted text is too short *)
  ∨ r = (false, EmptyString, "Document appears to be empty or too short to process")
  (* success *)
  ∨ (∃ f text_content,
       file = Some f
       ∧ DocumentProcessor.validate_file file = (true, EmptyString)
       ∧ (Py.lower (DocumentProcessor.splitext (file_name f)).2 = ".pdf"
          ∧ DocumentProcessor.extract_text_from_pdf pdf_pages f = Ok text_content
          ∨ Py.lower (DocumentProcessor.splitext (file_name f)).2 = ".txt"
            ∧ DocumentProcessor.extract_text_from_txt decode_bytes f = Ok text_content)
       ∧ 50 ≤ Py.len (Py.strip text_content)
       ∧ r = (true, text_content, EmptyString)).
Proof.
  intros r. unfold r, DocumentProcessor.process_document.
  destruct (DocumentProcessor.validate_file file) as [[|] error_msg] eqn:V; cbn [negb].
  - destruct (validate_file_valid _ _ V) as (-> & f & -> & Hext & _).
    unfold DocumentProcessor.str_in, DocumentProcessor.supported_formats in Hext.
    cbn [existsb] in Hext.
    destruct (String.eqb _ ".pdf") eqn:Epdf.
    + destruct (DocumentProcessor.extract_text_from_pdf pdf_pages f) as [t|e] eqn:X;
        cbn [mbind result_bind try_except].
      * destruct (checked_spec t) as [[-> Hlen]| ->]; [|by right; right; left].
        right; right; right. exists f, t. repeat split; try done.
        left. split; [by apply String.eqb_eq|done].
      * destruct (extract_text_from_pdf_error _ _ _ X) as [m ->].
        right; left. exists "Error processing PDF: ", m. split; [by left|done].
    + destruct (String.eqb _ ".txt") eqn:Etxt; [|done].
      destruct (DocumentProcessor.extract_text_from_txt decode_bytes f) as [t|e] eqn:X;
        cbn [mbind result_bind try_except].
      * destruct (checked_spec t) as [[-> Hlen]| ->]; [|by right; right; left].
        right; right; right. exists f, t. repeat split; try done.
        right. split; [by apply String.eqb_eq|done].
      * destruct (extract_text_from_txt_error _ _ _ X) as [m ->].
        right; left. exists "Error processing TXT file: ", m. split; [by right|done].
  - left. by exists error_msg.
Qed.

(** X13.  [process_document] never raises.  When it reports success, the
    file passed [validate_file], the text is what the extractor of its
    type returned ([extract_text_from_pdf] for the extension .pdf,
    [extract_text_from_txt] for .txt, in any letter case), it has at least
    50 characters once stripped, and the error message is empty.  When it
    reports failure, the text is empty. *)
Theorem process_document_spec (file : option uploaded_file) :
  let '(success, text_content, error_msg) :=
    DocumentProcessor.process_document pdf_pages decode_bytes file in
  (success = true →
   error_msg = EmptyString ∧
   50 ≤ Py.len (Py.strip text_content) ∧
   ∃ f, file = Some f ∧
        DocumentProcessor.validate_file file = (true, EmptyString) ∧
        (Py.lower (DocumentProcessor.splitext (file_name f)).2 = ".pdf"
         ∧ DocumentProcessor.extract_text_from_pdf pdf_pages f = Ok text_content
         ∨ Py.lower (DocumentProcessor.splitext (file_name f)).2 = ".txt"
           ∧ DocumentProcessor.extract_text_from_txt decode_bytes f = Ok text_content)) ∧
  (success = false → text_content = EmptyString).
Proof.
  destruct (process_document_cases file)
    as [(m & _ & ->) | [(p & m & _ & ->) | [-> | (f & t & -> & V & X & L & ->)]]];
    try (split; [done|done]).
  split; [|done]. intros _. split; [done|]. split; [done|]. by exists f.
Qed.

(** X14.  The last branch of [process_document] is dead: the message
    "Unsupported file format" is never returned, because a file whose
    extension is neither .pdf nor .txt is refused before by
    [validate_file], with its longer message. *)
Theorem process_document_never_bare_unsupported (file : option uploaded_file) :
  (DocumentProcessor.process_document pdf_pages decode_bytes file).2
  ≠ "Unsupported file format".
Proof.
  destruct (process_document_cases file)
    as [(m & V & ->) | [(p & m & Hp & ->) | [-> | (f & t & -> & V & X & L & ->)]]];
    cbn [snd]; try done.
  - by destruct (validate_file_invalid _ _ V) as [-> | [-> | ->]].
  - by destruct Hp as [-> | ->].
Qed.

End ProcessDocument.

Lemma process_document_spec_witness :
  DocumentProcessor.extract_text_from_txt
    (λ _ _, Decoded "A document with enough text in it to pass the check on its length.")
    (UploadedFile "notes.TXT" 67 [])
  = Ok "A document with enough text in it to pass the check on its length.".
Proof.
  pose proof (process_document_spec
                (λ _, Ok [])
                (λ _ _, Decoded "A document with enough text in it to pass the check on its length.")
                (Some (UploadedFile "notes.TXT" 67 []))) as H.
  change (DocumentProcessor.process_document _ _ _)
    with (true, "A document with enough text in it to pass the check on its length.",
          EmptyString) in H.
  destruct (proj1 H eq_refl) as (_ & _ & f & Hf & _ & [[Hext _] | [_ Htxt]]).
  - injection Hf as <-. discriminate Hext.
  - injection Hf as <-. exact Htxt.
Defined.

(** ** Further properties: app.py *)

Lemma slice_from_last5 (history : list entry) :
  slice_from history (-5) = drop (length history - 5) history.
Proof. unfold slice_from, Py.clamp. simpl. f_equal. lia. Qed.

(** X15.  The list under "Conversation History" shows the last five
    exchanges, the newest first, and the expander titled [Qn] holds the
    [n]-th entry of the history. *)
Theorem history_view_spec (history : list entry) :
  length (App.history_view history) = Nat.min 5 (length history) ∧
  ∀ (i : nat) (title question answer : string),
    App.history_view history !! i = Some (title, question, answer) →
    ∃ e,
      history !! (length history - 1 - i)%nat = Some e ∧
      (i < 5)%nat ∧ (i < length history)%nat ∧
      title = "Q" +:+ Py.str_of_int (Z.of_nat (length history - i)) +:+ ": "
                  +:+ Py.slice (entry_question e) 0 50 +:+ "..." ∧
      question = "**Question:** " +:+ entry_question e ∧
      answer = "**Answer:** " +:+ entry_answer e.
Proof.
  unfold App.history_view. rewrite slice_from_last5. split.
  - rewrite length_imap, length_reverse, length_drop. lia.
  - intros i title question answer. rewrite list_lookup_imap.
    destruct (reverse _ !! i) as [e|] eqn:E; [|done].
    pose proof (lookup_lt_Some _ _ _ E) as Hi.
    rewrite length_reverse, length_drop in Hi.
    rewrite reverse_lookup in E by (rewrite length_drop; lia).
    rewrite lookup_drop, length_drop in E.
    intros [= <- <- <-]. exists e. split.
    { rewrite <- E. f_equal. lia. }
    repeat split; [lia|lia|].
    do 2 f_equal. f_equal. lia.
Qed.

Lemma history_view_spec_witness :
  ∃ e, [Entry "q1" "a1"; Entry "q2" "a2"] !! 1%nat = Some e ∧
       "Q2: q2..." = "Q" +:+ Py.str_of_int 2 +:+ ": "
                         +:+ Py.slice (entry_question e) 0 50 +:+ "...".
Proof.
  destruct (proj2 (history_view_spec [Entry "q1" "a1"; Entry "q2" "a2"])
              O "Q2: q2..." "**Question:** q2" "**Answer:** a2" eq_refl)
    as (e & He & _ & _ & Ht & _).
  exists e. split; [exact He | exact Ht].
Defined.

(** ** Further properties: the session of app.py from click to click *)

Ltac fields :=
  cbn [current_question_index challenge_questions conversation_history
       document_text document_name challenge_mode question_answered summary].

Lemma truthy_questions (qs : list (gmap string pyobj)) :
  PyObj.truthy (PyList (PyDict <$> qs)) = negb (bool_decide (qs = [])).
Proof. destruct qs; unfold PyObj.truthy; by repeat case_bool_decide. Qed.

Lemma strip_long_nonempty (text : string) :
  50 ≤ Py.len (Py.strip text) → text ≠ EmptyString.
Proof. intros H ->. by apply H. Qed.

Lemma validate_file_named (f : uploaded_file) :
  DocumentProcessor.validate_file (Some f) = (true, EmptyString) →
  file_name f ≠ EmptyString.
Proof.
  intros V Hn. unfold DocumentProcessor.validate_file in V. rewrite Hn in V.
  vm_compute in V. done.
Qed.

Lemma add_to_conversation_history_length (history : list entry) (question answer : string) :
  (length history ≤ 10)%nat →
  (length (AIAssistant.add_to_conversation_history history question answer) ≤ 10)%nat.
Proof.
  intros H. unfold AIAssistant.add_to_conversation_history.
  destruct (10 <? _) eqn:E.
  - destruct history; cbn [app tail length] in *; rewrite ?length_app; cbn [length]; lia.
  - apply Z.ltb_ge in E. lia.
Qed.

Section Sessions.
Variable encode : string → result (list Z).
Variable decode : list Z → result string.
Variable chat_completion : request → result string.
Variable json_loads : string → result pyobj.
Variable pdf_pages : uploaded_file → result (list (result string)).
Variable decode_bytes : string → list Byte.byte → decoding.

Lemma process_document_ok (file : uploaded_file) (st : session) :
  session_ok st →
  session_ok (App.process_document encode decode chat_completion
                pdf_pages decode_bytes file st).
Proof.
  intros Hst. unfold App.process_document.
  destruct (process_document_cases pdf_pages decode_bytes (Some file))
    as [(m & _ & ->) | [(p & m & _ & ->) | [-> | (f & t & [= <-] & V & _ & L & ->)]]];
    try done.
  unfold AIAssistant.clear_conversation_history.
  repeat split; fields; try done; try (cbn [length]; lia); try (by left); try (by right).
  intros Hn. by destruct (validate_file_named _ V).
Qed.

Lemma generate_fresh (st : session) :
  challenge_questions st = [] →
  (length (conversation_history st) ≤ 10)%nat →
  (document_text st = EmptyString ∨ 50 ≤ Py.len (Py.strip (document_text st))) →
  (document_name st = EmptyString → document_text st = EmptyString) →
  session_ok (App.generate_challenge_questions encode decode chat_completion json_loads st).
Proof.
  intros Hq Hh Ht Hn. unfold App.generate_challenge_questions.
  rewrite truthy_questions, Hq. cbn [negb].
  rewrite bool_decide_eq_true_2 by done. cbn [negb].
  destruct (generate_result encode decode chat_completion json_loads (document_text st) 3)
    as (qs & Hqs & ->).
  repeat split; fields; try done.
  - by left.
  - by apply (length_slice_to qs 3).
  - by apply Forall_slice_to.
Qed.

Lemma generate_ok (st : session) :
  session_ok st →
  session_ok (App.generate_challenge_questions encode decode chat_completion json_loads st).
Proof.
  intros Hst. destruct (challenge_questions st) as [|q qs] eqn:E.
  - destruct Hst as (_ & _ & _ & _ & Hh & Ht & Hn). by apply generate_fresh.
  - unfold App.generate_challenge_questions. rewrite truthy_questions, E.
    by rewrite bool_decide_eq_false_2.
Qed.

Lemma renew_questions_ok (st : session) :
  session_ok st →
  session_ok (App.renew_questions encode decode chat_completion json_loads st).
Proof.
  intros (_ & _ & _ & _ & Hh & Ht & Hn). by apply generate_fresh.
Qed.

Lemma advance_ok (st : session) : session_ok st → session_ok (App.advance st).
Proof.
  intros (H0 & Hi & Hl & Hq & Hh & Ht & Hn). unfold App.advance.
  destruct (_ <? _) eqn:E; [|done].
  apply Z.ltb_lt in E. repeat split; fields; try done; lia.
Qed.

Lemma submit_answer_ok (st : session) : session_ok st → session_ok (App.submit_answer st).
Proof.
  intros Hst. unfold App.submit_answer.
  destruct (App.current_question st) as [q|]; [|done].
  unfold App.evaluate_answer.
  destruct (PyObj.getitem _ "question"); cbn [mbind result_bind]; [|done].
  by destruct (PyObj.getitem _ "expected_answer"); cbn [mbind result_bind].
Qed.

Lemma get_answer_ok (question : string) (st : session) :
  session_ok st →
  session_ok (App.get_answer encode decode chat_completion question st).2.
Proof.
  intros (H0 & Hi & Hl & Hq & Hh & Ht & Hn). unfold App.get_answer.
  destruct (AIAssistant.answer_question _ _ _ _ _ _) as [answer justification].
  repeat split; fields; try done. by apply add_to_conversation_history_length.
Qed.

Lemma step_ok (st : session) (ev : event) :
  session_ok st →
  session_ok (App.step encode decode chat_completion json_loads pdf_pages decode_bytes st ev).
Proof.
  intros Hst. destruct ev; cbn [App.step].
  - by apply process_document_ok.
  - destruct (App.nonempty _); [|done]. unfold App.clear_document.
    unfold AIAssistant.clear_conversation_history.
    repeat split; fields; try done; try (cbn [length]; lia); by left.
  - by destruct (App.nonempty _).
  - destruct (App.nonempty _); [|done]. by apply generate_ok.
  - destruct (_ && _); [|done]. by apply get_answer_ok.
  - destruct (_ && _); [|done]. by apply submit_answer_ok.
  - destruct (App.shows_question _); [|done]. by apply advance_ok.
  - destruct (App.shows_question _); [|done]. by apply renew_questions_ok.
  - destruct (App.shows_question _); [|done]. by apply advance_ok.
  - by destruct (App.shows_question _).
  - destruct (App.shows_completion _); [|done]. by apply renew_questions_ok.
Qed.

Lemma run_from_ok (events : list event) (st : session) :
  session_ok st →
  session_ok (fold_left
                (App.step encode decode chat_completion json_loads pdf_pages decode_bytes)
                events st).
Proof.
  revert st. induction events as [|ev events IH]; intros st Hst; [done|].
  cbn [fold_left]. by apply IH, step_ok.
Qed.

Lemma run_ok (events : list event) :
  session_ok (App.run encode decode chat_completion json_loads pdf_pages decode_bytes events).
Proof.
  apply run_from_ok. unfold App.initial.
  repeat split; fields; try done; try (cbn [length]; lia); by left.
Qed.

End Sessions.

Section SessionProperties.
Variable encode : string → result (list Z).
Variable decode : list Z → result string.
Variable chat_completion : request → result string.
Variable json_loads : string → result pyobj.
Variable pdf_pages : uploaded_file → result (list (result string)).
Variable decode_bytes : string → list Byte.byte → decoding.

(** X16.  Whatever the buttons clicked and whatever the services do, the
    session keeps: an index that is not negative, and is below the number
    of questions or 0; at most three questions, each with exactly the four
    keys and strings under ['question'] and ['expected_answer']; at most
    ten exchanges in the history; a document text that is empty or has at
    least 50 characters once stripped; and a document name whenever there
    is a document text. *)
Theorem session_invariant (events : list event) :
  session_ok (App.run encode decode chat_completion json_loads pdf_pages decode_bytes events).
Proof. apply run_ok. Qed.

(** X17.  The branch "You've completed all challenge questions!" of
    [display_challenge_mode] is never reached: no sequence of clicks leads
    to a session whose index is past the last question, so the button
    "Generate New Questions" is never on the page. *)
Theorem completion_never_shown (events : list event) :
  let st := App.run encode decode chat_completion json_loads pdf_pages decode_bytes events in
  App.shows_completion st = false
  ∧ App.step encode decode chat_completion json_loads pdf_pages decode_bytes
      st GenerateNewQuestions = st.
Proof.
  intros st.
  assert (App.shows_completion st = false) as H; [|split; [done|]; cbn [App.step]; by rewrite H].
  destruct (run_ok encode decode chat_completion json_loads pdf_pages decode_bytes events)
    as (H0 & Hi & _).
  fold st in H0, Hi. unfold App.shows_completion. rewrite truthy_questions.
  destruct (challenge_questions st) as [|q qs] eqn:E.
  - rewrite bool_decide_eq_true_2 by done. cbn [negb]. by rewrite !andb_false_r.
  - assert ((current_question_index st <? Z.of_nat (length (q :: qs))) = true) as ->.
    { apply Z.ltb_lt. cbn [length] in *. lia. }
    cbn [negb]. by rewrite !andb_false_r.
Qed.

(** X18.  Whenever the page shows a question, that question is in the
    list and has strings under ['question'] and ['expected_answer']: the
    lookups of [display_challenge_mode] and [evaluate_answer] never raise
    ([IndexError], [KeyError]), and "Submit Answer" with a text marks the
    question as answered and changes nothing else. *)
Theorem shown_question_is_well_formed (events : list event) :
  let st := App.run encode decode chat_completion json_loads pdf_pages decode_bytes events in
  App.shows_question st = true →
  ∃ q question expected_answer,
    challenge_questions st !! Z.to_nat (current_question_index st) = Some q
    ∧ App.current_question st = Some q
    ∧ PyObj.getitem (PyDict q) "question" = Ok (PyStr question)
    ∧ PyObj.getitem (PyDict q) "expected_answer" = Ok (PyStr expected_answer)
    ∧ App.submit_answer st = App.set_question_answered true st.
Proof.
  intros st Hshow.
  destruct (run_ok encode decode chat_completion json_loads pdf_pages decode_bytes events)
    as (H0 & _ & _ & Hq & _).
  fold st in H0, Hq. unfold App.shows_question in Hshow.
  apply andb_prop in Hshow as [_ Hlt]. apply Z.ltb_lt in Hlt.
  destruct (lookup_lt_is_Some_2 (challenge_questions st)
              (Z.to_nat (current_question_index st))) as [q Eq]; [lia|].
  pose proof (proj1 (Forall_lookup _ _) Hq _ _ Eq) as (_ & question & expected & Hqu & Hex).
  assert (App.current_question st = Some q) as Hcur.
  { unfold App.current_question, list_index.
    rewrite (proj2 (Z.leb_le _ _) H0), (proj2 (Z.ltb_lt _ _) Hlt). done. }
  exists q, question, expected. repeat split; try done.
  - unfold PyObj.getitem. by rewrite Hqu.
  - unfold PyObj.getitem. by rewrite Hex.
  - unfold App.submit_answer, App.evaluate_answer, PyObj.getitem.
    by rewrite Hcur, Hqu, Hex.
Qed.

End SessionProperties.

Lemma shown_question_is_well_formed_witness :
  let st :=
    App.run CharTokenizer.encode CharTokenizer.decode (service_down "no service")
      JsonFragment.loads (λ _, Ok [])
      (λ _ _, Decoded "A document with enough text in it to pass the check on its length.")
      [ProcessDocument (UploadedFile "notes.txt" 67 []); ChallengeMe] in
  ∃ q question expected_answer,
    challenge_questions st !! Z.to_nat (current_question_index st) = Some q
    ∧ App.current_question st = Some q
    ∧ PyObj.getitem (PyDict q) "question" = Ok (PyStr question)
    ∧ PyObj.getitem (PyDict q) "expected_answer" = Ok (PyStr expected_answer)
    ∧ App.submit_answer st = App.set_question_answered true st.
Proof.
  apply (shown_question_is_well_formed
           CharTokenizer.encode CharTokenizer.decode (service_down "no service")
           JsonFragment.loads (λ _, Ok [])
           (λ _ _, Decoded "A document with enough text in it to pass the check on its length.")
           [ProcessDocument (UploadedFile "notes.txt" 67 []); ChallengeMe]).
  vm_compute. reflexivity.
Defined.

(** ** Further properties: what the page does with a failed call *)

Lemma add_to_conversation_history_snoc (history : list entry) (question answer : string) :
  ∃ older,
    AIAssistant.add_to_conversation_history history question answer
    = older ++ [Entry question answer].
Proof.
  unfold AIAssistant.add_to_conversation_history.
  destruct history as [|e history]; [by exists []|].
  destruct (10 <? _); [by exists history|by exists (e :: history)].
Qed.

Lemma context_of_snoc (older : list entry) (question answer : string) :
  ∃ before,
    AIAssistant.context_of (Some (older ++ [Entry question answer]))
    = before +:+ "Q: " +:+ question +:+ nl +:+ "A: " +:+ answer +:+ nl.
Proof.
  destruct older as [|e older]; [by eexists|].
  unfold AIAssistant.context_of. cbn [app]. rewrite slice_from_last3.
  change (e :: older ++ [Entry question answer])
    with ((e :: older) ++ [Entry question answer]).
  rewrite drop_app_le by (rewrite length_app; cbn [length]; lia).
  rewrite fold_left_app. cbn [fold_left entry_question entry_answer].
  by eexists.
Qed.

Section FailedCalls.
Variable encode : string → result (list Z).
Variable decode : list Z → result string.
Variable chat_completion : request → result string.

(** X19.  When the truncation or the service call raises in "Get
      Answer", the page shows the error text as the answer, with an empty
    justification, and records it in the history as the answer to the
    question: it is the last entry, and the context of the next prompt
    ends with it. *)
Theorem failed_answer_is_recorded (question : string) (st : session) (e : exn) :
  flow_raises encode decode chat_completion (document_text st) 2500
    (λ t, AIAssistant.answer_prompt t
            (AIAssistant.context_of (Some (conversation_history st))) question)
    400 e →
  let message := "Error answering question: " +:+ str_of e in
  let shown := (App.get_answer encode decode chat_completion question st).1 in
  let st' := (App.get_answer encode decode chat_completion question st).2 in
  shown = (message, EmptyString)
  ∧ last (conversation_history st') = Some (Entry question message)
  ∧ ∃ before,
      AIAssistant.context_of (Some (conversation_history st'))
      = before +:+ "Q: " +:+ question +:+ nl +:+ "A: " +:+ message +:+ nl.
Proof.
  intros H message shown st'. unfold shown, st', App.get_answer.
  unfold AIAssistant.answer_question.
  rewrite (try_except_raises _ _
             (λ r, AIAssistant.split_answer_justification (Py.strip r)) _ e H).
  fold message. cbn [fst snd conversation_history].
  destruct (add_to_conversation_history_snoc (conversation_history st) question message)
    as [older ->].
  split; [done|]. split; [by rewrite last_snoc|]. apply context_of_snoc.
Qed.

(** X20.  When the reply to an evaluation has no line starting with
    "Score:", or the text of the last such line is not an integer, the page
    shows the result in its error band with the score 5, whatever the
    evaluation in the reply says. *)
Theorem evaluation_without_score_in_error_band
    (question user_answer expected_answer truncated_text response : string)
    (st : session) :
  let lines := Py.split_char (Py.strip response) Py.LF in
  AIAssistant.truncate_text encode decode (document_text st) 2000 = Ok truncated_text →
  chat_completion
    (Request AIAssistant.model
       (AIAssistant.evaluation_prompt truncated_text question expected_answer user_answer)
       300 AIAssistant.temperature) = Ok response →
  (last_with "Score:" lines = None
   ∨ ∃ line, last_with "Score:" lines = Some line ∧ Py.int (unmarked "Score:" line) = None) →
  App.evaluation_display encode decode chat_completion
    question user_answer expected_answer st
  = (ErrorBand,
     field_of "Evaluation:" "Partially Correct" lines,
     field_of "Feedback:" (Py.strip response) lines,
     5).
Proof.
  intros lines Ht Hr Hscore.
  unfold App.evaluation_display, AIAssistant.evaluate_user_answer.
  rewrite Ht. cbn [mbind result_bind]. rewrite Hr.
  cbn [mbind result_bind mret result_ret try_except].
  unfold AIAssistant.parse_evaluation. rewrite parse_lines_fields. fold lines.
  assert (score_of 5 lines = 5) as ->; [|done].
  unfold score_of. by destruct Hscore as [-> | (line & -> & ->)].
Qed.

End FailedCalls.

Lemma failed_answer_is_recorded_witness :
  let st' :=
    (App.get_answer CharTokenizer.encode CharTokenizer.decode (service_down "no service")
       "What is it about?" (Session "A document." "notes.txt" EmptyString [] 0 false false [])).2 in
  last (conversation_history st')
  = Some (Entry "What is it about?" "Error answering question: no service").
Proof.
  refine (proj1 (proj2 (failed_answer_is_recorded
            CharTokenizer.encode CharTokenizer.decode (service_down "no service")
            "What is it about?" (Session "A document." "notes.txt" EmptyString [] 0 false false [])
            (Raise OtherException "no service") _))).
  right. by eexists.
Defined.

Lemma evaluation_without_score_in_error_band_witness :
  App.evaluation_display CharTokenizer.encode CharTokenizer.decode
    (service_replying "Evaluation: Correct")
    "Why?" "Because." "Because it is so."
    (Session "A document." "notes.txt" EmptyString [] 0 false false [])
  = (ErrorBand, "Correct", "Evaluation: Correct", 5).
Proof.
  apply (evaluation_without_score_in_error_band
           CharTokenizer.encode CharTokenizer.decode (service_replying "Evaluation: Correct")
           "Why?" "Because." "Because it is so." "A document." "Evaluation: Correct"
           (Session "A document." "notes.txt" EmptyString [] 0 false false [])).
  - reflexivity.
  - reflexivity.
  - left. reflexivity.
Defined.

(** ** Further properties: the names [validate_file] accepts *)

Lemma take_drop_str (n : nat) (s : string) : Py.take n s +:+ Py.drop n s = s.
Proof.
  revert s. induction n as [|n IH]; intros [|c s]; try done.
  change (String c (Py.take n s +:+ Py.drop n s) = String c s). by rewrite IH.
Qed.

Lemma rfind_app_some (a b sub : string) (i : nat) :
  Py.rfind b sub = Some i → Py.rfind (a +:+ b) sub = Some (String.length a + i)%nat.
Proof.
  intros H. induction a as [|c a IH]; [done|].
  change (Py.rfind (String c (a +:+ b)) sub = Some (S (String.length a + i))).
  cbn [Py.rfind]. by rewrite IH.
Qed.

Lemma startswith_char (x c : ascii) (s : string) :
  Py.startswith (String x s) (String c EmptyString) = Ascii.eqb c x.
Proof.
  unfold Py.startswith. cbn [String.prefix].
  destruct (ascii_dec c x) as [->|Hne].
  - rewrite Ascii.eqb_refl. by destruct s.
  - symmetry. by apply Ascii.eqb_neq.
Qed.

Lemma rfind_char_app_none (a b : string) (c : ascii) :
  Py.rfind b (String c EmptyString) = None → Py.rfind (a +:+ b) (String c EmptyString) = Py.rfind a (String c EmptyString).
Proof.
  intros H. induction a as [|x a IH]; [by change (Py.rfind b (String c EmptyString) = None)|].
  change (Py.rfind (String x (a +:+ b)) (String c EmptyString) = Py.rfind (String x a) (String c EmptyString)).
  cbn [Py.rfind]. rewrite IH. by rewrite !startswith_char.
Qed.

Lemma rfind_char_lt (s : string) (c : ascii) (i : nat) :
  Py.rfind s (String c EmptyString) = Some i → (i < String.length s)%nat.
Proof.
  revert i. induction s as [|x s IH]; intros i; [done|].
  cbn [Py.rfind String.length]. destruct (Py.rfind s (String c EmptyString)) as [j|].
  - intros [= <-]. specialize (IH j eq_refl). lia.
  - destruct (Py.startswith _ _); [|done]. intros [= <-]. lia.
Qed.

Lemma take_app_drop (a b : string) (n : nat) :
  (n ≤ String.length a)%nat →
  Py.take (String.length a - n) (Py.drop n (a +:+ b)) = Py.drop n a.
Proof.
  revert a. induction n as [|n IH]; intros a Hn.
  - rewrite Nat.sub_0_r. apply take_app.
  - destruct a as [|x a]; [cbn [String.length] in Hn; lia|].
    cbn [String.length] in *. apply IH. lia.
Qed.

(** [splitext] on a name that ends in a dot and characters other than
    dots and slashes. *)
Lemma splitext_app (root ext : string) :
  Py.rfind ext "." = Some O →
  Py.rfind ext "/" = None →
  DocumentProcessor.splitext (root +:+ ext)
  = if DocumentProcessor.all_dots (basename root) then (root +:+ ext, EmptyString)
    else (root, ext).
Proof.
  intros Hdot Hsep. unfold DocumentProcessor.splitext, basename.
  rewrite (rfind_app_some root ext "." O Hdot), Nat.add_0_r.
  rewrite (rfind_char_app_none root ext "/" Hsep).
  cbn [QuestionGenerator.index_or_minus1].
  set (sepIndex := QuestionGenerator.index_or_minus1 (Py.rfind root "/")).
  assert (-1 ≤ sepIndex < Z.of_nat (String.length root)) as Hrange.
  { unfold sepIndex. destruct (Py.rfind root "/") as [i|] eqn:E;
      cbn [QuestionGenerator.index_or_minus1]; [|lia].
    apply rfind_char_lt in E. lia. }
  rewrite (proj2 (Z.ltb_lt _ _)) by lia. cbn [andb].
  assert (Py.slice (root +:+ ext) (sepIndex + 1) (Z.of_nat (String.length root))
          = Py.drop (Z.to_nat (sepIndex + 1)) root) as ->.
  { unfold Py.slice. rewrite !clamp_nonneg by lia.
    assert (String.length (root +:+ ext) = (String.length root + String.length ext)%nat) as ->.
    { clear. induction root as [|x root IH]; [done|].
      change (S (String.length (root +:+ ext)) = S (String.length root + String.length ext)).
      by rewrite IH. }
    rewrite Nat2Z.id.
    rewrite (Nat.min_l (Z.to_nat (sepIndex + 1))) by lia.
    rewrite (Nat.min_l (String.length root)) by lia.
    apply take_app_drop. lia. }
  rewrite Nat2Z.id, take_app, drop_app.
  by destruct (DocumentProcessor.all_dots _).
Qed.

Lemma lower_char_dot (c : ascii) : Py.lower_char c = "."%char → c = "."%char.
Proof. destruct c as [[] [] [] [] [] [] [] []]; by vm_compute. Qed.

Lemma lower_char_letter (c l : ascii) :
  Py.lower_char c = l → l ≠ "."%char → l ≠ "/"%char →
  Ascii.eqb "." c = false ∧ Ascii.eqb "/" c = false.
Proof.
  intros <- Hdot Hsep. split; apply Ascii.eqb_neq; intros <-.
  - by apply Hdot.
  - by apply Hsep.
Qed.

(** An extension [validate_file] accepts is a dot and three letters. *)
Lemma accepted_extension_shape (ext : string) :
  accepted_extension ext → Py.rfind ext "." = Some O ∧ Py.rfind ext "/" = None.
Proof.
  intros H.
  assert (∃ c1 c2 c3 l1 l2 l3,
            ext = String "." (String c1 (String c2 (String c3 EmptyString)))
            ∧ Py.lower_char c1 = l1 ∧ Py.lower_char c2 = l2 ∧ Py.lower_char c3 = l3
            ∧ (l1 ≠ "." ∧ l1 ≠ "/" ∧ l2 ≠ "." ∧ l2 ≠ "/" ∧ l3 ≠ "." ∧ l3 ≠ "/")%char)
    as (c1 & c2 & c3 & l1 & l2 & l3 & -> & H1 & H2 & H3 & N1 & M1 & N2 & M2 & N3 & M3).
  { destruct ext as [|c0 [|c1 [|c2 [|c3 [|c4 ext]]]]];
      try (by destruct H as [H|H]).
    exists c1, c2, c3, (Py.lower_char c1), (Py.lower_char c2), (Py.lower_char c3).
    assert (c0 = "."%char) as ->.
    { apply lower_char_dot. destruct H as [H|H]; cbn [Py.lower] in H; congruence. }
    split; [done|]. do 3 (split; [done|]).
    destruct H as [H|H]; cbn [Py.lower] in H; injection H as -> -> ->; by repeat split. }
  destruct (lower_char_letter _ _ H1 N1 M1) as [D1 S1].
  destruct (lower_char_letter _ _ H2 N2 M2) as [D2 S2].
  destruct (lower_char_letter _ _ H3 N3 M3) as [D3 S3].
  cbn [Py.rfind]. rewrite !startswith_char, D1, D2, D3, S1, S2, S3. by vm_compute.
Qed.

(** X21.  [validate_file] accepts a file exactly when its name is a root
    followed by an extension that is ".pdf" or ".txt" in some letter case,
    the part of the root after its last slash has a character that is not a
    dot, and the size is at most 10 MB (10485760 bytes).  A file named
    ".pdf" is refused; "Notes.PDF" is accepted. *)
Theorem validate_file_accepts_iff (f : uploaded_file) :
  DocumentProcessor.validate_file (Some f) = (true, EmptyString)
  ↔ (∃ root ext,
       file_name f = root +:+ ext
       ∧ accepted_extension ext
       ∧ DocumentProcessor.all_dots (basename root) = false)
    ∧ file_size f ≤ 10485760.
Proof.
  assert (∀ ext, DocumentProcessor.str_in (Py.lower ext) DocumentProcessor.supported_formats
                 = true ↔ accepted_extension ext) as Hin.
  { intros ext. unfold DocumentProcessor.str_in, DocumentProcessor.supported_formats,
      accepted_extension. cbn [existsb]. rewrite orb_false_r, orb_true_iff.
    by rewrite !String.eqb_eq. }
  split.
  - intros V. destruct (validate_file_valid _ _ V) as (_ & f' & [= <-] & Hext & Hsize).
    split; [|done]. apply Hin in Hext.
    exists (DocumentProcessor.splitext (file_name f)).1,
           (DocumentProcessor.splitext (file_name f)).2.
    assert (file_name f
            = (DocumentProcessor.splitext (file_name f)).1
                +:+ (DocumentProcessor.splitext (file_name f)).2) as Hname.
    { unfold DocumentProcessor.splitext. destruct (_ && _); cbn [fst snd].
      - by rewrite take_drop_str.
      - by rewrite str_app_empty_r. }
    split; [done|]. split; [done|].
    destruct (accepted_extension_shape _ Hext) as [Hdot Hsep].
    pose proof (splitext_app (DocumentProcessor.splitext (file_name f)).1 _ Hdot Hsep) as E.
    rewrite <- Hname in E.
    destruct (DocumentProcessor.all_dots _); [|done].
    rewrite E in Hext. by destruct Hext.
  - intros [(root & ext & Hname & Hext & Hbase) Hsize].
    destruct (accepted_extension_shape _ Hext) as [Hdot Hsep].
    unfold DocumentProcessor.validate_file.
    rewrite Hname, (splitext_app root ext Hdot Hsep), Hbase. cbn [snd].
    rewrite (proj2 (Hin ext) Hext). cbn [negb].
    by rewrite (proj2 (Z.ltb_ge _ _)).
Qed.

Lemma validate_file_accepts_iff_witness :
  DocumentProcessor.validate_file (Some (UploadedFile "Notes.PDF" 10485760 []))
  = (true, EmptyString).
Proof.
  apply (proj2 (validate_file_accepts_iff (UploadedFile "Notes.PDF" 10485760 []))).
  split; [|cbn [file_size]; lia].
  exists "Notes", ".PDF". split; [reflexivity|]. split; [by left|reflexivity].
Defined.
